(** * Verification of the tax estimator of [app.py]

    The development embeds the tax engine ([calc_marginal_tax], the federal
    and state estimators, [annualize]) and the three JSON routes
    ([api_estimate], [api_save_net_income], [api_update_latest_net_income])
    and proves the properties stated for them.

    Numbers.  A Python [float] is read as the number it denotes: a rational,
    or one of the three special values [inf], [-inf] and [nan], with the IEEE
    rules for the special values.  Arithmetic on the rationals is exact: the
    rounding of binary64 is not modelled, and signed zeros are not
    distinguished; the conversions [float(n)] of an integer and [float(s)]
    of a string do overflow as in binary64.  An equation between a computed
    amount and a formula says that the program evaluates that formula, each
    operation rounded.  An order between two computed amounts carries over
    to binary64, every operation of the program being monotone under
    rounding.  A bound of a computed amount by a product is stated only
    where it leaves room for the rounding.

    Strings.  A Python [str] is read as a string of 8-bit characters;
    [lower], [upper] and [strip] are Python's on ASCII text, and leave the
    characters above 127 alone. *)

From Stdlib Require Import QArith Qminmax Qround Qabs Lqa Lia ZArith Ascii String.
From stdpp Require Import base option list strings gmap pretty.

Local Open Scope Q_scope.

(** ** Python floats *)

Inductive pyfloat : Type :=
  | Fin (q : Q)
  | PInf
  | NInf
  | NaN.

Definition Qltb (x y : Q) : bool := negb (Qle_bool y x).

Module F.

Definition zero : pyfloat := Fin 0.

Definition of_Z (z : Z) : pyfloat := Fin (inject_Z z).

Definition neg (x : pyfloat) : pyfloat :=
  match x with
  | Fin a => Fin (- a)
  | PInf => NInf
  | NInf => PInf
  | NaN => NaN
  end.

Definition add (x y : pyfloat) : pyfloat :=
  match x, y with
  | NaN, _ | _, NaN => NaN
  | Fin a, Fin b => Fin (a + b)
  | PInf, NInf | NInf, PInf => NaN
  | PInf, _ | _, PInf => PInf
  | NInf, _ | _, NInf => NInf
  end.

Definition sub (x y : pyfloat) : pyfloat := add x (neg y).

(** Sign of a float: [Some Gt], [Some Eq], [Some Lt], or [None] for nan. *)
Definition sign (x : pyfloat) : option comparison :=
  match x with
  | Fin a => Some (a ?= 0)
  | PInf => Some Gt
  | NInf => Some Lt
  | NaN => None
  end.

Definition mul (x y : pyfloat) : pyfloat :=
  match x, y with
  | Fin a, Fin b => Fin (a * b)
  | _, _ =>
      match sign x, sign y with
      | Some Gt, Some Gt | Some Lt, Some Lt => PInf
      | Some Gt, Some Lt | Some Lt, Some Gt => NInf
      | _, _ => NaN
      end
  end.

(** [x < y]; every comparison with nan is false. *)
Definition ltb (x y : pyfloat) : bool :=
  match x, y with
  | NaN, _ | _, NaN => false
  | Fin a, Fin b => Qltb a b
  | NInf, NInf | PInf, _ | _, NInf => false
  | NInf, _ | _, PInf => true
  end.

(** [x <= y]. *)
Definition leb (x y : pyfloat) : bool :=
  match x, y with
  | NaN, _ | _, NaN => false
  | Fin a, Fin b => Qle_bool a b
  | NInf, _ | _, PInf => true
  | PInf, _ | _, NInf => false
  end.

(** [x == y] of Python. *)
Definition eqb (x y : pyfloat) : bool :=
  match x, y with
  | Fin a, Fin b => Qeq_bool a b
  | PInf, PInf | NInf, NInf => true
  | _, _ => false
  end.

(** The builtin [max(a, b)]: [b] replaces [a] only when [b > a]. *)
Definition max (a b : pyfloat) : pyfloat := if ltb a b then b else a.

(** The builtin [min(a, b)]: [b] replaces [a] only when [b < a]. *)
Definition min (a b : pyfloat) : pyfloat := if ltb b a then b else a.

(** Two floats denote the same value. *)
Definition eqv (x y : pyfloat) : Prop :=
  match x, y with
  | Fin a, Fin b => a == b
  | PInf, PInf | NInf, NInf | NaN, NaN => True
  | _, _ => False
  end.

Definition is_finite (x : pyfloat) : bool :=
  match x with Fin _ => true | _ => false end.

End F.

#[global] Instance pyfloat_equiv : Equiv pyfloat := F.eqv.

(** ** Tax tables (2025) *)

(** A bracket is the pair [(upper_limit, rate)] over taxable income. *)
Abbreviation bracket := (pyfloat * Q)%type.

Definition FED_STANDARD_DEDUCTION_2025 : gmap string Z :=
  <["single" := 15000%Z]> (<["mfj" := 30000%Z]> (<["hoh" := 22500%Z]> ∅)).

Definition fed_single : list bracket :=
  [ (Fin 11925, 0.10); (Fin 48475, 0.12); (Fin 103350, 0.22);
    (Fin 197300, 0.24); (Fin 250525, 0.32); (Fin 626350, 0.35);
    (PInf, 0.37) ].

Definition fed_mfj : list bracket :=
  [ (Fin 23850, 0.10); (Fin 96950, 0.12); (Fin 206700, 0.22);
    (Fin 394600, 0.24); (Fin 501050, 0.32); (Fin 751600, 0.35);
    (PInf, 0.37) ].

Definition fed_hoh : list bracket :=
  [ (Fin 17000, 0.10); (Fin 64850, 0.12); (Fin 103350, 0.22);
    (Fin 197300, 0.24); (Fin 250500, 0.32); (Fin 626350, 0.35);
    (PInf, 0.37) ].

Definition FED_BRACKETS_2025 : gmap string (list bracket) :=
  <["single" := fed_single]> (<["mfj" := fed_mfj]> (<["hoh" := fed_hoh]> ∅)).

Definition state_CA : list bracket :=
  [ (Fin 10756, 0.01); (Fin 25500, 0.02); (Fin 40245, 0.04);
    (Fin 55866, 0.06); (Fin 70606, 0.08); (Fin 360659, 0.093);
    (Fin 432787, 0.103); (Fin 720110, 0.113); (PInf, 0.123) ].

Definition state_NY : list bracket :=
  [ (Fin 8500, 0.04); (Fin 11700, 0.045); (Fin 13900, 0.0525);
    (Fin 80650, 0.055); (Fin 215400, 0.06); (Fin 1077550, 0.0685);
    (Fin 5000000, 0.0965); (Fin 25000000, 0.103); (PInf, 0.109) ].

Definition no_income_tax : list bracket := [ (PInf, 0.0) ].

Definition STATE_BRACKETS_2025_SINGLE : gmap string (list bracket) :=
  <["CA" := state_CA]> (<["NY" := state_NY]>
    (<["WA" := no_income_tax]> (<["FL" := no_income_tax]> ∅))).

Definition SUPPORTED_STATES : list (string * string) :=
  [ ("CA", "California"); ("NY", "New York");
    ("WA", "Washington (no income tax)"); ("FL", "Florida (no income tax)") ].

(** ** Tax math *)

(** The body of the [for] loop of [calc_marginal_tax], with the loop
    variables [tax], [remaining] and [lower] as arguments. *)
Fixpoint marginal_loop (brackets : list bracket)
    (tax remaining lower : pyfloat) : pyfloat :=
  match brackets with
  | [] => tax
  | (upper, rate) :: rest =>
      if F.leb remaining F.zero then tax
      else
        let band := F.min remaining (F.sub upper lower) in
        if F.ltb F.zero band
        then marginal_loop rest (F.add tax (F.mul band (Fin rate)))
                           (F.sub remaining band) upper
        else marginal_loop rest tax remaining upper
  end.

Definition calc_marginal_tax (taxable_income : pyfloat)
    (brackets : list bracket) : pyfloat :=
  marginal_loop brackets F.zero (F.max F.zero taxable_income) F.zero.

(** ** Strings *)

Module Str.

Definition lower_char (c : ascii) : ascii :=
  let n := nat_of_ascii c in
  if (65 <=? n)%nat && (n <=? 90)%nat then ascii_of_nat (n + 32) else c.

Definition upper_char (c : ascii) : ascii :=
  let n := nat_of_ascii c in
  if (97 <=? n)%nat && (n <=? 122)%nat then ascii_of_nat (n - 32) else c.

Fixpoint map (f : ascii → ascii) (s : string) : string :=
  match s with
  | EmptyString => EmptyString
  | String c s' => String (f c) (map f s')
  end.

(** [s.lower()] and [s.upper()]. *)
Definition lower : string → string := map lower_char.
Definition upper : string → string := map upper_char.

(** [c.isspace()] on ASCII. *)
Definition is_space (c : ascii) : bool :=
  let n := nat_of_ascii c in
  ((9 <=? n)%nat && (n <=? 13)%nat) || ((28 <=? n)%nat && (n <=? 32)%nat).

Fixpoint lstrip (s : string) : string :=
  match s with
  | String c s' => if is_space c then lstrip s' else s
  | EmptyString => EmptyString
  end.

(** [s.strip()]. *)
Definition strip (s : string) : string :=
  String.rev (lstrip (String.rev (lstrip s))).

(** [s[:n]]. *)
Fixpoint take (n : nat) (s : string) : string :=
  match n, s with
  | S n', String c s' => String c (take n' s')
  | _, _ => EmptyString
  end.

(** [s.isascii()]: every character has a code below 128. *)
Fixpoint is_ascii (s : string) : bool :=
  match s with
  | EmptyString => true
  | String c s' => (nat_of_ascii c <? 128)%nat && is_ascii s'
  end.

End Str.

(** ** Exceptions *)

Inductive exn : Type :=
  | KeyError | AttributeError | TypeError | ValueError | OverflowError.

Inductive result (A : Type) : Type :=
  | Ok (a : A)
  | Raise (e : exn).
Arguments Ok {A} a.
Arguments Raise {A} e.

#[global] Instance result_ret : MRet result := λ A a, Ok a.
#[global] Instance result_bind : MBind result := λ A B f m,
  match m with
  | Ok a => f a
  | Raise e => Raise e
  end.

(** [d[k]] on a dictionary. *)
Definition getitem {V : Type} (d : gmap string V) (k : string) : result V :=
  match d !! k with
  | Some v => Ok v
  | None => Raise KeyError
  end.

(** ** The estimators *)

Record fed_result : Type := FedResult {
  standard_deduction : pyfloat;
  taxable_income : pyfloat;
  federal_tax : pyfloat
}.

Record state_result : Type := StateResult {
  state_taxable_income : pyfloat;
  state_tax : pyfloat
}.

Definition estimate_federal_tax_2025 (gross_annual : pyfloat)
    (filing_status : string) : result fed_result :=
  let filing_status := Str.lower filing_status in
  let filing_status :=
    match FED_BRACKETS_2025 !! filing_status with
    | None => "single"
    | Some _ => filing_status
    end in
  d ← getitem FED_STANDARD_DEDUCTION_2025 filing_status;
  let standard_deduction := F.of_Z d in
  let taxable := F.max F.zero (F.sub gross_annual standard_deduction) in
  brackets ← getitem FED_BRACKETS_2025 filing_status;
  let tax := calc_marginal_tax taxable brackets in
  mret (FedResult standard_deduction taxable tax).

Definition estimate_state_tax_2025_single (gross_annual : pyfloat)
    (state_code : string) : state_result :=
  let state_code := Str.upper state_code in
  let brackets :=
    default [(PInf, 0.0)] (STATE_BRACKETS_2025_SINGLE !! state_code) in
  let taxable := F.max F.zero gross_annual in
  let tax := calc_marginal_tax taxable brackets in
  StateResult taxable tax.

Definition annualize (amount : pyfloat) (frequency : string) : pyfloat :=
  let freq := Str.lower frequency in
  if bool_decide (freq = "weekly") then F.mul amount (F.of_Z 52)
  else if bool_decide (freq = "bi-weekly") || bool_decide (freq = "biweekly")
  then F.mul amount (F.of_Z 26)
  else if bool_decide (freq = "monthly") then F.mul amount (F.of_Z 12)
  else amount.

(** ** JSON values and the builtins applied to them *)

Local Set Warnings "-register-all".

(** A decoded request body.  A JSON number without fraction and exponent
    is a Python [int], any other JSON number a [float]; a JSON object is a
    list of its members. *)
Inductive json : Type :=
  | JNull
  | JBool (b : bool)
  | JInt (n : Z)
  | JNum (x : pyfloat)
  | JStr (s : string)
  | JList (l : list json)
  | JDict (m : list (string * json)).

(** Truth value of a Python object. *)
Definition truthy (v : json) : bool :=
  match v with
  | JNull => false
  | JBool b => b
  | JInt n => negb (n =? 0)%Z
  | JNum x => negb (F.eqb x F.zero)
  | JStr s => negb (bool_decide (s = ""))
  | JList l => negb (bool_decide (l = []))
  | JDict m => negb (bool_decide (m = []))
  end.

(** [a or b]. *)
Definition py_or (a b : json) : json := if truthy a then a else b.

Fixpoint assoc (m : list (string * json)) (k : string) : option json :=
  match m with
  | [] => None
  | (k', v) :: m' => if bool_decide (k' = k) then Some v else assoc m' k
  end.

(** [d.get(k, dflt)]; only a dictionary has the method. *)
Definition dict_get (d : json) (k : string) (dflt : json) : result json :=
  match d with
  | JDict m => Ok (default dflt (assoc m k))
  | _ => Raise AttributeError
  end.

(** [v.lower()], [v.upper()] and [v.strip()]; only a string has them. *)
Definition str_method (f : string → string) (v : json) : result string :=
  match v with
  | JStr s => Ok (f s)
  | _ => Raise AttributeError
  end.

(** The least magnitude that rounds to no finite binary64 number: halfway
    between the largest one, [2^1024 - 2^971], and [2^1024]. *)
Definition FLOAT_OVERFLOW : Z := (2 ^ 1024 - 2 ^ 970)%Z.

(** The literal grammar of [float(s)]: optional sign, then [inf],
    [infinity] or [nan] in any case, or digits with an optional fraction and
    an optional exponent; underscores may separate digits; white space around
    the literal is ignored.  A literal too large for a float reads as an
    infinity. *)
Module Parse.

Definition digit (c : ascii) : option N :=
  let n := N_of_ascii c in
  if (48 <=? n)%N && (n <=? 57)%N then Some (n - 48)%N else None.

Fixpoint digit_tail (acc : N) (cnt : nat) (s : list ascii)
    : N * nat * list ascii :=
  match s with
  | c :: s' =>
      match digit c with
      | Some d => digit_tail (10 * acc + d)%N (S cnt) s'
      | None =>
          if bool_decide (c = "_"%char) then
            match s' with
            | c2 :: s'' =>
                match digit c2 with
                | Some d => digit_tail (10 * acc + d)%N (S cnt) s''
                | None => (acc, cnt, s)
                end
            | [] => (acc, cnt, s)
            end
          else (acc, cnt, s)
      end
  | [] => (acc, cnt, [])
  end.

(** [digit (["_"] digit)*], continuing the number [acc]; returns the
    number, how many digits were read, and the rest of the input. *)
Definition digitpart (acc : N) (s : list ascii)
    : option (N * nat * list ascii) :=
  match s with
  | c :: s' =>
      match digit c with
      | Some d => Some (digit_tail (10 * acc + d)%N 1 s')
      | None => None
      end
  | [] => None
  end.

(** [[digitpart] "." digitpart | digitpart ["."]]: mantissa, number of
    fraction digits, rest. *)
Definition number (s : list ascii) : option (N * nat * list ascii) :=
  match digitpart 0 s with
  | Some (m, _, r) =>
      match r with
      | "."%char :: r' =>
          match digitpart m r' with
          | Some res => Some res
          | None => Some (m, 0%nat, r')
          end
      | _ => Some (m, 0%nat, r)
      end
  | None =>
      match s with
      | "."%char :: r => digitpart 0 r
      | _ => None
      end
  end.

Definition signed (s : list ascii) : bool * list ascii :=
  match s with
  | "-"%char :: r => (true, r)
  | "+"%char :: r => (false, r)
  | _ => (false, s)
  end.

(** [("e" | "E") [sign] digitpart] up to the end of the input. *)
Definition exponent (s : list ascii) : option Z :=
  match s with
  | [] => Some 0%Z
  | c :: r =>
      if bool_decide (c = "e"%char) || bool_decide (c = "E"%char) then
        let '(negative, r') := signed r in
        match digitpart 0 r' with
        | Some (e, _, []) =>
            Some (if negative then (- Z.of_N e)%Z else Z.of_N e)
        | _ => None
        end
      else None
  end.

Definition float_of_str (s : string) : option pyfloat :=
  let '(negative, body) := signed (list_ascii_of_string (Str.strip s)) in
  let word := Str.lower (string_of_list_ascii body) in
  if bool_decide (word = "inf") || bool_decide (word = "infinity")
  then Some (if negative then NInf else PInf)
  else if bool_decide (word = "nan") then Some NaN
  else
    match number body with
    | Some (m, k, r) =>
        match exponent r with
        | Some e =>
            let q := inject_Z (Z.of_N m) * 10 ^ (e - Z.of_nat k) in
            if Qle_bool (inject_Z FLOAT_OVERFLOW) q
            then Some (if negative then NInf else PInf)
            else Some (Fin (if negative then - q else q))
        | None => None
        end
    | None => None
    end.

End Parse.

(** [float(v)]; an [int] too large for a float raises [OverflowError]. *)
Definition py_float (v : json) : result pyfloat :=
  match v with
  | JNum x => Ok x
  | JInt n =>
      if (Z.abs n <? FLOAT_OVERFLOW)%Z then Ok (F.of_Z n)
      else Raise OverflowError
  | JBool b => Ok (Fin (if b then 1 else 0))
  | JStr s =>
      match Parse.float_of_str s with
      | Some x => Ok x
      | None => Raise ValueError
      end
  | JNull | JList _ | JDict _ => Raise TypeError
  end.

(** [try: x = float(v)] / [except (TypeError, ValueError): x = fallback]. *)
Definition float_or (v : json) (fallback : pyfloat) : result pyfloat :=
  match py_float v with
  | Ok x => Ok x
  | Raise TypeError | Raise ValueError => Ok fallback
  | Raise e => Raise e
  end.

(** [request.get_json(force=True) or {}]. *)
Definition get_payload (body : json) : json := py_or body (JDict []).

(** ** The estimate route *)

Record estimate_response : Type := EstimateResponse {
  est_gross_annual : pyfloat;
  est_filing_status : string;
  est_state : string;
  est_federal : fed_result;
  est_state_detail : state_result;
  est_total_tax : pyfloat;
  est_net_annual : pyfloat
}.

(** Lines 230 to 246 of [api_estimate]: the two estimators combined. *)
Definition compose_estimate (gross_annual : pyfloat)
    (filing_status state : string) : result estimate_response :=
  fed ← estimate_federal_tax_2025 gross_annual filing_status;
  let st := estimate_state_tax_2025_single gross_annual state in
  let total_tax := F.add (federal_tax fed) (state_tax st) in
  let net_annual := F.max F.zero (F.sub gross_annual total_tax) in
  mret (EstimateResponse gross_annual filing_status state fed st
          total_tax net_annual).

Definition api_estimate (body : json) : result estimate_response :=
  let payload := get_payload body in
  g ← dict_get payload "gross_annual" (JInt 0);
  gross_annual ← float_or g (Fin 0.0);
  fs ← dict_get payload "filing_status" JNull;
  filing_status ← str_method Str.lower (py_or fs (JStr "single"));
  st ← dict_get payload "state" JNull;
  state ← str_method Str.upper (py_or st (JStr "WA"));
  compose_estimate gross_annual filing_status state.

(** ** The persisted document *)

Record entry : Type := Entry {
  e_id : Z;
  e_ts : string;
  e_label : string;
  e_net_amount : pyfloat;
  e_frequency : string;
  e_net_annual_equivalent : pyfloat;
  e_ts_edited : option string
}.

Record activity_item : Type := ActivityItem {
  a_ts : string;
  a_message : string
}.

(** The JSON document of [finance.json]; [None] is an absent key. *)
Record document : Type := Document {
  net_income_entries : option (list entry);
  activity : option (list activity_item)
}.

(** The file system as far as the routes see it: [None] when the file
    does not exist. *)
Definition disk : Type := option document.

(** A computation that reads and writes the file and may raise. *)
Definition io (A : Type) : Type := disk → result A * disk.

#[global] Instance io_ret : MRet io := λ A a d, (Ok a, d).
#[global] Instance io_bind : MBind io := λ A B f m d,
  match m d with
  | (Ok a, d') => f a d'
  | (Raise e, d') => (Raise e, d')
  end.

Definition lift {A : Type} (r : result A) : io A := λ d, (r, d).

Definition _load_data : io document := λ d,
  match d with
  | None =>
      let fresh := Document (Some []) (Some []) in (Ok fresh, Some fresh)
  | Some data => (Ok data, d)
  end.

Definition _save_data (data : document) : io unit := λ _, (Ok (), Some data).

(** [l[-n:]]. *)
Definition last_n {A : Type} (n : nat) (l : list A) : list A :=
  drop (length l - n) l.

(** [_log_activity]; [now] is the reading of the clock by [_now_iso]. *)
Definition _log_activity (data : document) (message now : string) : document :=
  let items := default [] (activity data) ++ [ActivityItem now message] in
  Document (net_income_entries data) (Some (last_n 50 items)).

(** The format specification [,.2f]. *)
Module Fmt.

Definition round_half_even (v : Q) : Z :=
  let f := Qfloor v in
  match Qcompare (v - inject_Z f) (1 # 2) with
  | Lt => f
  | Gt => (f + 1)%Z
  | Eq => if Z.even f then f else (f + 1)%Z
  end.

(** Commas between groups of three, on the reversed digits. *)
Fixpoint group (n : nat) (s : string) : string :=
  match s with
  | EmptyString => EmptyString
  | String c s' =>
      if (n =? 3)%nat then String "," (String c (group 1 s'))
      else String c (group (S n) s')
  end.

Definition thousands (digits : string) : string :=
  String.rev (group 0 (String.rev digits)).

Definition two_digits (n : Z) : string :=
  if (n <? 10)%Z then "0" +:+ pretty n else pretty n.

Definition comma_2f (x : pyfloat) : string :=
  match x with
  | Fin q =>
      let cents := round_half_even (Qabs q * 100) in
      (if Qltb q 0 then "-" else "")
        +:+ thousands (pretty (cents / 100)%Z)
        +:+ "." +:+ two_digits (cents mod 100)%Z
  | PInf => "inf"
  | NInf => "-inf"
  | NaN => "nan"
  end.

End Fmt.

(** ** The net income routes *)

Inductive response : Type :=
  | EntryOk (e : entry)
  | Failure (error : string).

Definition FREQUENCIES : list string :=
  ["weekly"; "bi-weekly"; "biweekly"; "monthly"; "yearly"].

(** [if frequency not in {...}: frequency = "monthly"]. *)
Definition known_frequency (frequency : string) : string :=
  if bool_decide (frequency ∈ FREQUENCIES) then frequency else "monthly".

Definition set_entries (data : document) (entries : list entry) : document :=
  Document (Some entries) (activity data).

(** [api_save_net_income]; [now_ms], [now] and [now_log] are the three
    readings of the clock, in the order the route takes them. *)
Definition api_save_net_income (body : json) (now_ms : Z)
    (now now_log : string) : io (response * Z) :=
  let payload := get_payload body in
  l ← lift (dict_get payload "label" JNull);
  label ← lift (str_method (λ s, Str.take 60 (Str.strip s))
                  (py_or l (JStr "Net income")));
  n ← lift (dict_get payload "net_amount" (JInt 0));
  net_amount ← lift (float_or n (Fin 0.0));
  f ← lift (dict_get payload "frequency" JNull);
  frequency ← lift (str_method Str.lower (py_or f (JStr "monthly")));
  let frequency := known_frequency frequency in
  let net_annual := annualize net_amount frequency in
  data ← _load_data;
  let entry := Entry now_ms now label net_amount frequency net_annual None in
  let entries := default [] (net_income_entries data) ++ [entry] in
  let data := set_entries data (last_n 100 entries) in
  let data :=
    _log_activity data
      ("Saved net income: " +:+ Fmt.comma_2f net_amount
         +:+ " (" +:+ frequency +:+ ")") now_log in
  _save_data data;;
  mret (EntryOk entry, 200%Z).

(** [api_update_latest_net_income]; [now] and [now_log] are the two
    readings of the clock.  [latest] is the last element of the list held by
    [data], so the assignments to it show in [data]. *)
Definition api_update_latest_net_income (body : json)
    (now now_log : string) : io (response * Z) :=
  let payload := get_payload body in
  data ← _load_data;
  let entries := default [] (net_income_entries data) in
  match last entries with
  | None => mret (Failure "No net income entry to edit.", 400%Z)
  | Some latest =>
      l ← lift (dict_get payload "label" JNull);
      label ← lift (str_method (λ s, Str.take 60 (Str.strip s))
                      (py_or (py_or l (JStr (e_label latest)))
                             (JStr "Net income")));
      n ← lift (dict_get payload "net_amount" (JNum (e_net_amount latest)));
      net_amount ← lift (float_or n (e_net_amount latest));
      f ← lift (dict_get payload "frequency" JNull);
      frequency ← lift (str_method Str.lower
                          (py_or (py_or f (JStr (e_frequency latest)))
                                 (JStr "monthly")));
      let frequency := known_frequency frequency in
      let latest :=
        Entry (e_id latest) (e_ts latest) label net_amount frequency
              (annualize net_amount frequency) (Some now) in
      let data :=
        set_entries data (<[(length entries - 1)%nat := latest]> entries) in
      let data :=
        _log_activity data
          ("Edited latest net income: " +:+ Fmt.comma_2f net_amount
             +:+ " (" +:+ frequency +:+ ")") now_log in
      _save_data data;;
      mret (EntryOk latest, 200%Z)
  end.

(** ** The page routes *)

(** What a page route hands to [render_template]: the template and its
    variables. *)
Inductive page : Type :=
  | IndexPage (last_activity : option activity_item)
              (last_entry : option entry)
  | NetIncomePage (last_entry : option entry)
                  (states : list (string * string)).

(** [(data.get(k) or [])[-1] if data.get(k) else None]. *)
Definition latest_of {A : Type} (value : option (list A)) : option A :=
  match value with
  | Some (_ :: _) => last (default [] value)
  | _ => None
  end.

Definition index : io page :=
  data ← _load_data;
  mret (IndexPage (latest_of (activity data))
          (latest_of (net_income_entries data))).

Definition net_income : io page :=
  data ← _load_data;
  mret (NetIncomePage (latest_of (net_income_entries data)) SUPPORTED_STATES).

(** ** The bracket table invariant and the reference computations *)

(** A bracket of the data model: the bound is a money amount or the
    infinity sentinel, the rate a fraction in [0,1). *)
Definition bracket_ok (b : bracket) : Prop :=
  (F.is_finite b.1 = true ∨ b.1 = PInf) ∧ 0 <= b.2 ∧ b.2 < 1.

(** Upper bounds strictly increase. *)
Fixpoint increasing (tbl : list bracket) : Prop :=
  match tbl with
  | b1 :: rest =>
      match rest with
      | b2 :: _ => F.ltb b1.1 b2.1 = true
      | [] => True
      end ∧ increasing rest
  | [] => True
  end.

(** The last bracket is the catch-all one. *)
Definition ends_at_infinity (tbl : list bracket) : Prop :=
  last tbl.*1 = Some PInf.

(** The bracket table invariant: brackets of the data model, strictly
    increasing in their upper bound, ending at infinity. *)
Definition bracket_table (tbl : list bracket) : Prop :=
  Forall bracket_ok tbl ∧ increasing tbl ∧ ends_at_infinity tbl.

(** No bound lies below the lower edge 0 from which the first band starts. *)
Definition bounds_nonneg (tbl : list bracket) : Prop :=
  Forall (λ b : bracket, F.leb F.zero b.1 = true) tbl.

(** The band width of the algorithm as the text gives it:
    [min(remaining, upper_bound − lower_edge)], the width of the catch-all
    band being unbounded. *)
Definition band_width (remaining : Q) (upper lower : pyfloat) : Q :=
  match upper, lower with
  | Fin u, Fin l => Qmin remaining (u - l)
  | PInf, Fin _ => remaining
  | _, _ => 0
  end.

(** The banded accumulation as the text gives it: the tax still to be
    accumulated from [brackets] on the untaxed amount [remaining], the lower
    edge being [lower]. *)
Fixpoint banded (brackets : list bracket) (remaining : Q) (lower : pyfloat)
    : Q :=
  match brackets with
  | [] => 0
  | (upper, rate) :: rest =>
      if Qlt_le_dec 0 remaining then
        let band := band_width remaining upper lower in
        if Qlt_le_dec 0 band
        then band * rate + banded rest (remaining - band) upper
        else banded rest remaining upper
      else 0
  end.

Definition spec_compute (taxable_income : Q) (brackets : list bracket) : Q :=
  banded brackets (Qmax 0 taxable_income) (Fin 0).

(** A band edge restricted to the income interval [[0, x]]. *)
Definition clip (x : Q) (edge : pyfloat) : Q :=
  match edge with
  | Fin e => Qmax 0 (Qmin x e)
  | PInf => Qmax 0 x
  | NInf | NaN => 0
  end.

(** The portion of the income [x] that lies inside the band from [lo] to
    [hi]. *)
Definition inside (x : Q) (lo hi : pyfloat) : Q :=
  Qmax 0 (clip x hi - clip x lo).

(** Marginal taxation: every band taxes the portion of the income inside it
    at its own rate. *)
Fixpoint marginal_sum (x : Q) (lo : pyfloat) (tbl : list bracket) : Q :=
  match tbl with
  | [] => 0
  | (hi, rate) :: rest => inside x lo hi * rate + marginal_sum x hi rest
  end.

Definition standard_tax (taxable_income : Q) (tbl : list bracket) : Q :=
  marginal_sum taxable_income (Fin 0) tbl.



(** ** Further notions used in the statements *)

(** The first bound of a table, if any, is not below [l]. *)
Definition starts_above (l : Q) (tbl : list bracket) : Prop :=
  match tbl with
  | b :: _ => F.leb (Fin l) b.1 = true
  | [] => True
  end.

(** A table that satisfies the invariant although its first bound lies
    below the lower edge 0. *)
Definition skewed_table : list bracket :=
  [ (Fin (-5), 0.1); (Fin 10, 0.5); (PInf, 0.2) ].

(** The filing status the text selects: the status in lower case when it is
    one of the three supported ones, "single" otherwise. *)
Definition fed_key (filing_status : string) : string :=
  if bool_decide (Str.lower filing_status ∈ ["single"; "mfj"; "hoh"])
  then Str.lower filing_status
  else "single".

(** The tables that the two estimators can select. *)
Definition tables : list (list bracket) :=
  [fed_single; fed_mfj; fed_hoh; state_CA; state_NY; no_income_tax].

(** [payload.get(k)]. *)
Definition field (m : list (string * json)) (k : string) : json :=
  default JNull (assoc m k).

(** A value that [float] converts or rejects with an exception that the
    routes catch: anything but an integer too large for a float. *)
Definition fits_float (v : json) : Prop := py_float v ≠ Raise OverflowError.

(** A field that is missing, empty, or a string. *)
Definition absent_or_str (v : json) : Prop :=
  truthy v = false ∨ ∃ s, v = JStr s.

(** The message that [api_save_net_income] logs. *)
Definition saved_message (e : entry) : string :=
  "Saved net income: " +:+ Fmt.comma_2f (e_net_amount e)
    +:+ " (" +:+ e_frequency e +:+ ")".

(** The entry that [api_update_latest_net_income] makes of the latest
    entry [old]: the statements between [latest = entries[-1]] and the
    logging, which only read the request and [old]. *)
Definition edited (payload : json) (old : entry) (now : string)
    : result entry :=
  l ← dict_get payload "label" JNull;
  label ← str_method (λ s, Str.take 60 (Str.strip s))
            (py_or (py_or l (JStr (e_label old))) (JStr "Net income"));
  n ← dict_get payload "net_amount" (JNum (e_net_amount old));
  net_amount ← float_or n (e_net_amount old);
  f ← dict_get payload "frequency" JNull;
  frequency ← str_method Str.lower
                (py_or (py_or f (JStr (e_frequency old))) (JStr "monthly"));
  let frequency := known_frequency frequency in
  mret (Entry (e_id old) (e_ts old) label net_amount frequency
          (annualize net_amount frequency) (Some now)).

(** The message that [api_update_latest_net_income] logs. *)
Definition edited_message (e : entry) : string :=
  "Edited latest net income: " +:+ Fmt.comma_2f (e_net_amount e)
    +:+ " (" +:+ e_frequency e +:+ ")".

(** The deduction and the tables that a filing status and a state code
    select. *)
Definition fed_deduction_of (filing_status : string) : Z :=
  default 15000%Z (FED_STANDARD_DEDUCTION_2025 !! fed_key filing_status).

Definition fed_table_of (filing_status : string) : list bracket :=
  default fed_single (FED_BRACKETS_2025 !! fed_key filing_status).

Definition state_table_of (state_code : string) : list bracket :=
  default [(PInf, 0.0)] (STATE_BRACKETS_2025_SINGLE !! Str.upper state_code).

(** The entry that [api_save_net_income] makes of a request: the statements
    before [_load_data] and the construction of [entry], which only read the
    request and the clock. *)
Definition prepared (payload : json) (now_ms : Z) (now : string)
    : result entry :=
  l ← dict_get payload "label" JNull;
  label ← str_method (λ s, Str.take 60 (Str.strip s))
            (py_or l (JStr "Net income"));
  n ← dict_get payload "net_amount" (JInt 0);
  net_amount ← float_or n (Fin 0.0);
  f ← dict_get payload "frequency" JNull;
  frequency ← str_method Str.lower (py_or f (JStr "monthly"));
  let frequency := known_frequency frequency in
  mret (Entry now_ms now label net_amount frequency
          (annualize net_amount frequency) None).

(** What both routes establish for the entry they write: a recognized
    frequency, the annual equivalent of its amount and frequency, and a
    label of at most 60 characters. *)
Definition entry_ok (e : entry) : Prop :=
  e_frequency e ∈ FREQUENCIES ∧
  e_net_annual_equivalent e = annualize (e_net_amount e) (e_frequency e) ∧
  (String.length (e_label e) ≤ 60)%nat.

(** The entries of the file, none when the file or the key is absent. *)
Definition entries_of (d : disk) : list entry :=
  match d with
  | Some doc => default [] (net_income_entries doc)
  | None => []
  end.

Definition activity_of (d : disk) : list activity_item :=
  match d with
  | Some doc => default [] (activity doc)
  | None => []
  end.

(** * Properties *)

(** ** Comparisons on rationals and floats *)

Lemma Qle_bool_false (a b : Q) : Qle_bool a b = false → b < a.
Proof.
  intros H. apply Qnot_le_lt. intros Hle.
  apply Qle_bool_iff in Hle. congruence.
Qed.

Lemma Qltb_true (a b : Q) : Qltb a b = true → a < b.
Proof.
  unfold Qltb. intros H. apply Qle_bool_false.
  by destruct (Qle_bool b a).
Qed.

Lemma Qltb_false (a b : Q) : Qltb a b = false → b <= a.
Proof.
  unfold Qltb. intros H. apply Qle_bool_iff.
  by destruct (Qle_bool b a).
Qed.

Lemma Qltb_intro (a b : Q) : a < b → Qltb a b = true.
Proof.
  intros H. destruct (Qltb a b) eqn:E; [done|].
  apply Qltb_false in E. lra.
Qed.

Lemma Qle_bool_intro (a b : Q) : a <= b → Qle_bool a b = true.
Proof. apply Qle_bool_iff. Qed.

(** Turn the boolean comparisons of the context into propositions. *)
Ltac qprop :=
  repeat match goal with
  | H : Qle_bool _ _ = true |- _ => apply Qle_bool_iff in H
  | H : Qle_bool _ _ = false |- _ => apply Qle_bool_false in H
  | H : Qltb _ _ = true |- _ => apply Qltb_true in H
  | H : Qltb _ _ = false |- _ => apply Qltb_false in H
  end.

(** Replace every minimum and maximum in sight by a variable and its
    specification. *)
Ltac qminmax :=
  repeat match goal with
  | |- context [Qmax ?a ?b] =>
      let H := fresh in
      let m := fresh "m" in
      pose proof (Q.max_spec a b) as H; remember (Qmax a b) as m;
      match goal with Heq : m = _ |- _ => clear Heq end
  | |- context [Qmin ?a ?b] =>
      let H := fresh in
      let m := fresh "m" in
      pose proof (Q.min_spec a b) as H; remember (Qmin a b) as m;
      match goal with Heq : m = _ |- _ => clear Heq end
  | H : context [Qmax ?a ?b] |- _ =>
      let H' := fresh in
      let m := fresh "m" in
      pose proof (Q.max_spec a b) as H'; remember (Qmax a b) as m;
      match goal with Heq : m = _ |- _ => clear Heq end
  | H : context [Qmin ?a ?b] |- _ =>
      let H' := fresh in
      let m := fresh "m" in
      pose proof (Q.min_spec a b) as H'; remember (Qmin a b) as m;
      match goal with Heq : m = _ |- _ => clear Heq end
  end.

#[global] Instance feqv_equivalence : Equivalence F.eqv.
Proof.
  split.
  - intros []; simpl; auto. reflexivity.
  - intros [] []; simpl; auto. intros H. by symmetry.
  - intros [] [] []; simpl; auto; try contradiction.
    intros H1 H2. by etransitivity.
Qed.

Lemma leb_proper (a a' b b' : pyfloat) :
  a ≡ a' → b ≡ b' → F.leb a b = F.leb a' b'.
Proof.
  destruct a, a', b, b'; simpl; try contradiction; try reflexivity.
  unfold equiv, pyfloat_equiv. simpl. intros H1 H2. by rewrite H1, H2.
Qed.

(** ** The loop of [calc_marginal_tax] on finite amounts *)

(** One turn of the loop at a finite bound. *)
Lemma marginal_loop_finite_bound (u rate : Q) rest (t r l : Q) :
  marginal_loop ((Fin u, rate) :: rest) (Fin t) (Fin r) (Fin l) =
  if Qle_bool r 0 then Fin t
  else
    let band := if Qltb (u + - l) r then u + - l else r in
    if Qltb 0 band
    then marginal_loop rest (Fin (t + band * rate)) (Fin (r + - band)) (Fin u)
    else marginal_loop rest (Fin t) (Fin r) (Fin u).
Proof.
  cbn [marginal_loop]. unfold F.min, F.sub. simpl.
  destruct (Qle_bool r 0); [done|].
  by destruct (Qltb (u + - l) r).
Qed.

(** One turn of the loop at the catch-all bound. *)
Lemma marginal_loop_infinite_bound (rate : Q) rest (t r l : Q) :
  marginal_loop ((PInf, rate) :: rest) (Fin t) (Fin r) (Fin l) =
  if Qle_bool r 0 then Fin t
  else if Qltb 0 r
  then marginal_loop rest (Fin (t + r * rate)) (Fin (r + - r)) PInf
  else marginal_loop rest (Fin t) (Fin r) PInf.
Proof.
  cbn [marginal_loop]. unfold F.min, F.sub. simpl.
  by destruct (Qle_bool r 0).
Qed.

Lemma marginal_loop_done rest (t r : Q) (lower : pyfloat) :
  r <= 0 → marginal_loop rest (Fin t) (Fin r) lower = Fin t.
Proof.
  intros H. destruct rest as [|[u rate] rest]; [done|].
  cbn [marginal_loop]. simpl. by rewrite Qle_bool_intro.
Qed.

Lemma feqv_fin (a b : Q) : a == b → Fin a ≡ Fin b.
Proof. done. Qed.

(** On a table of the data model the loop computes the banded accumulation
    of the text and adds it to the tax accumulated so far. *)
Lemma marginal_loop_banded (tbl : list bracket) :
  Forall bracket_ok tbl → increasing tbl →
  ∀ t r l t' r' v,
    t' == t → r' == r → v == t + banded tbl r (Fin l) →
    marginal_loop tbl (Fin t') (Fin r') (Fin l) ≡ Fin v.
Proof.
  induction tbl as [|[upper rate] rest IH];
    intros Hok Hinc t r l t' r' v Ht Hr Hv.
  - simpl in *. apply feqv_fin. lra.
  - apply Forall_cons in Hok as [[Hfin _] Hok]. destruct Hinc as [Hlt Hinc].
    simpl in Hfin.
    destruct upper as [u| | |]; try (destruct Hfin; discriminate).
    + (* a finite bound *)
      rewrite marginal_loop_finite_bound. cbn [banded band_width] in Hv.
      pose proof (Q.min_spec r (u - l)) as Hmin.
      destruct (Qlt_le_dec 0 r) as [Hpos|Hneg].
      2:{ rewrite Qle_bool_intro by lra. apply feqv_fin. lra. }
      destruct (Qle_bool r' 0) eqn:E; qprop; [lra|]. cbv zeta in *.
      destruct (Qltb (u + - l) r') eqn:E1; qprop;
        destruct (Qlt_le_dec 0 (Qmin r (u - l))).
      * rewrite Qltb_intro by lra.
        apply (IH Hok Hinc (t + Qmin r (u - l) * rate) (r - Qmin r (u - l)));
          destruct Hmin as [[? Hm]|[? Hm]]; rewrite ?Hm; try lra;
          try (rewrite Ht, Hr; lra);
          assert (r' == u - l) as Hx by lra; rewrite Ht, Hx; lra.
      * destruct (Qltb 0 (u + - l)) eqn:E2; qprop; [lra|].
        by apply (IH Hok Hinc t r).
      * rewrite Qltb_intro by lra.
        apply (IH Hok Hinc (t + Qmin r (u - l) * rate) (r - Qmin r (u - l)));
          destruct Hmin as [[? Hm]|[? Hm]]; rewrite ?Hm; try lra;
          try (rewrite Ht, Hr; lra);
          assert (r' == u - l) as Hx by lra; rewrite Ht, Hx; lra.
      * lra.
    + (* the catch-all bound *)
      rewrite marginal_loop_infinite_bound. cbn [banded band_width] in Hv.
      destruct (Qlt_le_dec 0 r) as [Hpos|Hneg].
      2:{ rewrite Qle_bool_intro by lra. apply feqv_fin. lra. }
      destruct (Qle_bool r' 0) eqn:E; qprop; [lra|].
      rewrite Qltb_intro by lra.
      destruct (Qlt_le_dec 0 r); [|lra].
      rewrite marginal_loop_done by lra.
      destruct rest as [|[[] ?] rest']; [|simpl in Hlt; discriminate..].
      simpl in Hv. apply feqv_fin. rewrite Hv, Ht, Hr. lra.
Qed.

Lemma fmax_zero_fin (x : Q) : F.max F.zero (Fin x) ≡ Fin (Qmax 0 x).
Proof.
  unfold F.max, F.zero. simpl.
  destruct (Qltb 0 x) eqn:E; qprop; apply feqv_fin;
    destruct (Q.max_spec 0 x) as [[? ->]|[? ->]]; lra.
Qed.

(** [calc_marginal_tax] computes the banded accumulation of the text. *)
Lemma calc_marginal_tax_banded (x : Q) (tbl : list bracket) :
  bracket_table tbl →
  calc_marginal_tax (Fin x) tbl ≡ Fin (spec_compute x tbl).
Proof.
  intros (Hok & Hinc & _). unfold calc_marginal_tax, spec_compute.
  pose proof (fmax_zero_fin x) as Hmax.
  destruct (F.max F.zero (Fin x)) as [r| | |]; try contradiction.
  apply (marginal_loop_banded tbl Hok Hinc 0 (Qmax 0 x)); [reflexivity|done|lra].
Qed.

(** ** The banded accumulation *)

Lemma banded_zero (tbl : list bracket) (r : Q) (lo : pyfloat) :
  r <= 0 → banded tbl r lo = 0.
Proof.
  intros H. destruct tbl as [|[u rate] rest]; [done|].
  simpl. destruct (Qlt_le_dec 0 r); [lra|done].
Qed.

Lemma band_width_le (r : Q) (upper lower : pyfloat) :
  0 <= r → band_width r upper lower <= r.
Proof.
  intros H. destruct upper, lower; simpl; try lra.
  destruct (Q.min_spec r (q - q0)) as [[? ->]|[? ->]]; lra.
Qed.

Lemma band_width_mono (r1 r2 : Q) (upper lower : pyfloat) :
  r1 <= r2 →
  band_width r1 upper lower <= band_width r2 upper lower ∧
  r1 - band_width r1 upper lower <= r2 - band_width r2 upper lower.
Proof.
  intros H. destruct upper, lower; simpl; try lra.
  destruct (Q.min_spec r1 (q - q0)) as [[? ->]|[? ->]];
    destruct (Q.min_spec r2 (q - q0)) as [[? ->]|[? ->]]; lra.
Qed.

Lemma banded_nonneg (tbl : list bracket) :
  Forall (λ b : bracket, 0 <= b.2) tbl →
  ∀ r lo, 0 <= banded tbl r lo.
Proof.
  induction tbl as [|[u rate] rest IH]; intros Hr r lo; simpl; [lra|].
  apply Forall_cons in Hr as [Hrate Hr]. simpl in Hrate.
  destruct (Qlt_le_dec 0 r); [|lra].
  destruct (Qlt_le_dec 0 (band_width r u lo)) as [Hw|Hw]; [|by apply IH].
  specialize (IH Hr (r - band_width r u lo) u).
  pose proof (Qmult_le_0_compat _ _ (Qlt_le_weak _ _ Hw) Hrate). lra.
Qed.

(** The banded accumulation grows with the amount to tax. *)
Lemma banded_mono (tbl : list bracket) :
  Forall (λ b : bracket, 0 <= b.2) tbl →
  ∀ r1 r2 lo, r1 <= r2 → banded tbl r1 lo <= banded tbl r2 lo.
Proof.
  induction tbl as [|[u rate] rest IH]; intros Hr r1 r2 lo Hle; [simpl; lra|].
  pose proof (banded_nonneg _ Hr r2 lo) as Hnn.
  apply Forall_cons in Hr as [Hrate Hr]. simpl in Hrate.
  cbn [banded] in *. cbv zeta in *.
  destruct (band_width_mono r1 r2 u lo Hle) as [Hw Hrest].
  destruct (Qlt_le_dec 0 r1) as [H1|H1]; [|done].
  destruct (Qlt_le_dec 0 r2) as [H2|H2]; [|lra].
  destruct (Qlt_le_dec 0 (band_width r1 u lo)) as [Hw1|Hw1];
    destruct (Qlt_le_dec 0 (band_width r2 u lo)) as [Hw2|Hw2].
  - specialize (IH Hr _ _ u Hrest).
    pose proof (Qmult_le_compat_r _ _ rate Hw Hrate). lra.
  - lra.
  - (* the band is empty for [r1]: it is empty for [r2] as well *)
    exfalso. destruct u, lo; simpl in *; try lra.
    destruct (Q.min_spec r1 (q - q0)) as [[? Hm1]|[? Hm1]];
      destruct (Q.min_spec r2 (q - q0)) as [[? Hm2]|[? Hm2]];
      rewrite ?Hm1, ?Hm2 in *; lra.
  - by apply IH.
Qed.

(** The banded accumulation taxes no more than the whole amount at any
    rate [m] that bounds the rates of the table. *)
Lemma banded_le (tbl : list bracket) (m : Q) :
  Forall (λ b : bracket, b.2 <= m) tbl → 0 <= m →
  ∀ r lo, 0 <= r → banded tbl r lo <= r * m.
Proof.
  intros Hm Hm0.
  induction tbl as [|[u rate] rest IH]; intros r lo Hr; simpl.
  - pose proof (Qmult_le_0_compat _ _ Hr Hm0). lra.
  - apply Forall_cons in Hm as [Hrate Hm]. simpl in Hrate.
    pose proof (Qmult_le_0_compat _ _ Hr Hm0).
    destruct (Qlt_le_dec 0 r); [|lra].
    destruct (Qlt_le_dec 0 (band_width r u lo)) as [Hw|Hw]; [|by apply IH].
    pose proof (band_width_le r u lo Hr) as Hwr.
    assert (0 <= r - band_width r u lo) as Hrem by lra.
    specialize (IH Hm (r - band_width r u lo) u Hrem).
    assert (band_width r u lo * rate <= band_width r u lo * m) as Hprod.
    { rewrite !(Qmult_comm (band_width r u lo)).
      apply Qmult_le_compat_r; lra. }
    lra.
Qed.




Lemma bracket_ok_rate (tbl : list bracket) :
  Forall bracket_ok tbl → Forall (λ b : bracket, 0 <= b.2) tbl.
Proof. intros H. eapply Forall_impl; [exact H|]. by intros b (_ & ? & _). Qed.



(** ** The same bands at one rate *)







(** ** Banded accumulation and marginal taxation *)

Lemma inside_finite (x l u : Q) :
  0 <= x → 0 <= l → l <= u →
  inside x (Fin l) (Fin u) == Qmin (Qmax 0 (x - l)) (u - l).
Proof. intros. unfold inside, clip. qminmax. lra. Qed.

Lemma inside_infinite (x l : Q) :
  0 <= x → 0 <= l → inside x (Fin l) PInf == Qmax 0 (x - l).
Proof. intros. unfold inside, clip. qminmax. lra. Qed.

Lemma fltb_leb (a b : pyfloat) : F.ltb a b = true → F.leb a b = true.
Proof.
  destruct a, b; simpl; try done.
  intros H. apply Qltb_true in H. apply Qle_bool_intro. lra.
Qed.

(** From a non-negative lower edge, on increasing bounds, the banded
    accumulation taxes in every band the portion of the income inside it. *)
Lemma banded_marginal_sum (x : Q) (tbl : list bracket) :
  0 <= x → Forall bracket_ok tbl → increasing tbl →
  ∀ l r, 0 <= l → starts_above l tbl → r == Qmax 0 (x - l) →
    banded tbl r (Fin l) == marginal_sum x (Fin l) tbl.
Proof.
  intros Hx. induction tbl as [|[upper rate] rest IH];
    intros Hok Hinc l r Hl Hstart Hr; [reflexivity|].
  apply Forall_cons in Hok as [[Hfin _] Hok]. destruct Hinc as [Hlt Hinc].
  simpl in Hfin, Hstart. cbn [banded marginal_sum]. cbv zeta.
  destruct upper as [u| | |]; try (destruct Hfin; discriminate);
    unfold band_width.
  - (* a finite bound *)
    apply Qle_bool_iff in Hstart.
    assert (0 <= u) as Hu by lra.
    assert (starts_above u rest) as Hrest.
    { destruct rest as [|b2 ?]; [done|]. by apply fltb_leb. }
    rewrite (inside_finite x l u Hx Hl Hstart).
    pose proof (Q.min_spec r (u - l)) as Hmin.
    assert (Qmin (Qmax 0 (x - l)) (u - l) == Qmin r (u - l)) as Hw.
    { revert Hmin. qminmax. lra. }
    rewrite Hw.
    destruct (Qlt_le_dec 0 r) as [Hpos|Hneg]; cbv zeta.
    + destruct (Qlt_le_dec 0 (Qmin r (u - l))) as [Hband|Hband].
      * assert (r - Qmin r (u - l) == Qmax 0 (x - u)) as Hr'
          by (revert Hmin Hr; qminmax; lra).
        pose proof (IH Hok Hinc u _ Hu Hrest Hr') as HIH. lra.
      * assert (Qmin r (u - l) == 0) as -> by lra.
        assert (r == Qmax 0 (x - u)) as Hr'
          by (revert Hmin Hr; qminmax; lra).
        pose proof (IH Hok Hinc u _ Hu Hrest Hr') as HIH. lra.
    + assert (Qmin r (u - l) == 0) as ->
        by (revert Hmin Hr; qminmax; lra).
      assert (0 == Qmax 0 (x - u)) as Hr' by (revert Hr; qminmax; lra).
      pose proof (IH Hok Hinc u _ Hu Hrest Hr') as HIH.
      rewrite banded_zero in HIH by lra. lra.
  - (* the catch-all bound *)
    destruct rest as [|[[] ?] rest']; [|simpl in Hlt; discriminate..].
    rewrite (inside_infinite x l Hx Hl), <- Hr. simpl.
    destruct (Qlt_le_dec 0 r) as [Hpos|Hneg]; cbv zeta.
    + destruct (Qlt_le_dec 0 r); lra.
    + assert (r == 0) as -> by (revert Hr; qminmax; lra). lra.
Qed.

(** ** Checking the invariant on a concrete table *)

Ltac table_ok :=
  unfold bracket_table, bounds_nonneg, ends_at_infinity;
  repeat match goal with
  | |- _ ∧ _ => split
  | |- Forall _ (_ :: _) => constructor
  | |- Forall _ [] => constructor
  | |- bracket_ok _ => unfold bracket_ok; simpl
  | |- increasing _ => simpl
  | |- _ ∨ _ => first [left; reflexivity | right; reflexivity]
  | |- (_ <= _)%Q => by vm_compute
  | |- (_ < _)%Q => by vm_compute
  | |- True => exact I
  | |- _ = _ => reflexivity
  end.

Lemma fed_single_table : bracket_table fed_single ∧ bounds_nonneg fed_single.
Proof. unfold fed_single. table_ok. Qed.

Lemma fed_mfj_table : bracket_table fed_mfj ∧ bounds_nonneg fed_mfj.
Proof. unfold fed_mfj. table_ok. Qed.

Lemma fed_hoh_table : bracket_table fed_hoh ∧ bounds_nonneg fed_hoh.
Proof. unfold fed_hoh. table_ok. Qed.

Lemma state_CA_table : bracket_table state_CA ∧ bounds_nonneg state_CA.
Proof. unfold state_CA. table_ok. Qed.

Lemma state_NY_table : bracket_table state_NY ∧ bounds_nonneg state_NY.
Proof. unfold state_NY. table_ok. Qed.

Lemma no_income_tax_table :
  bracket_table no_income_tax ∧ bounds_nonneg no_income_tax.
Proof. unfold no_income_tax. table_ok. Qed.

(** ** The marginal tax calculator *)

(** C1, as stated, fails: on a table whose bounds strictly increase and end
    at infinity but start below 0, an income of 15 is taxed 7.5 by
    [calc_marginal_tax] (the whole of it at the rate of the second band),
    whereas the portions inside the bands, 10 at 0.5 and 5 at 0.2, give 6. *)
Lemma marginal_tax_not_standard_below_zero :
  bracket_table skewed_table ∧
  calc_marginal_tax (Fin 15) skewed_table ≡ Fin 7.5 ∧
  standard_tax (Qmax 0 15) skewed_table == 6 ∧
  ¬ calc_marginal_tax (Fin 15) skewed_table
      ≡ Fin (standard_tax (Qmax 0 15) skewed_table).
Proof.
  split; [unfold skewed_table; table_ok|].
  split; [by vm_compute|]. split; [by vm_compute|].
  vm_compute. discriminate.
Qed.

(** C1 (amended).  For every taxable income and every bracket table that
    satisfies the invariant and has no bound below 0, [calc_marginal_tax]
    computes the banded accumulation of the text (income clamped at 0, band
    = min(remaining, upper − lower), band × rate added when the band is
    positive, nothing more once nothing remains), and that accumulation is
    marginal taxation: every band taxes the portion of the income inside it
    at its own rate. *)
Theorem calc_marginal_tax_standard (x : Q) (tbl : list bracket) :
  bracket_table tbl → bounds_nonneg tbl →
  calc_marginal_tax (Fin x) tbl ≡ Fin (spec_compute x tbl) ∧
  spec_compute x tbl == standard_tax (Qmax 0 x) tbl.
Proof.
  intros Htbl Hnn. split; [by apply calc_marginal_tax_banded|].
  destruct Htbl as (Hok & Hinc & _).
  unfold spec_compute, standard_tax.
  apply banded_marginal_sum; auto.
  - apply Q.le_max_l.
  - lra.
  - destruct Hnn as [|b rest Hb _]; [done|exact Hb].
  - assert (Qmax 0 x - 0 == Qmax 0 x) as Hm by lra. rewrite Hm.
    symmetry. apply Q.max_r, Q.le_max_l.
Qed.

(** The federal table for single filers at a taxable income of 45000. *)
Lemma calc_marginal_tax_standard_witness :
  (bracket_table fed_single ∧ bounds_nonneg fed_single) ∧
  calc_marginal_tax (Fin 45000) fed_single
    ≡ Fin (spec_compute 45000 fed_single) ∧
  spec_compute 45000 fed_single == standard_tax (Qmax 0 45000) fed_single.
Proof.
  split; [exact fed_single_table|].
  apply (calc_marginal_tax_standard 45000 fed_single);
    apply fed_single_table.
Defined.

(** C2.  For a fixed bracket table satisfying the invariant and taxable
    incomes 0 <= x1 <= x2, the tax computed for x1 is at most the tax
    computed for x2. *)
Theorem calc_marginal_tax_monotone (tbl : list bracket) (x1 x2 : Q) :
  bracket_table tbl → 0 <= x1 → 0 <= x2 → x1 <= x2 →
  F.leb (calc_marginal_tax (Fin x1) tbl) (calc_marginal_tax (Fin x2) tbl)
    = true.
Proof.
  intros Htbl H1 H2 Hle.
  rewrite (leb_proper _ _ _ _ (calc_marginal_tax_banded x1 tbl Htbl)
             (calc_marginal_tax_banded x2 tbl Htbl)).
  apply Qle_bool_intro. unfold spec_compute.
  apply banded_mono; [apply bracket_ok_rate, Htbl|].
  apply Q.max_le_compat_l, Hle.
Qed.

(** The New York table at 45000 and 60000. *)
Lemma calc_marginal_tax_monotone_witness :
  bracket_table state_NY ∧ 0 <= 45000 ∧ 0 <= 60000 ∧ 45000 <= 60000 ∧
  F.leb (calc_marginal_tax (Fin 45000) state_NY)
        (calc_marginal_tax (Fin 60000) state_NY) = true.
Proof.
  assert (0 <= 45000) as H1 by (by vm_compute).
  assert (0 <= 60000) as H2 by (by vm_compute).
  assert (45000 <= 60000) as H3 by (by vm_compute).
  split; [apply state_NY_table|]. do 3 (split; [assumption|]).
  apply (calc_marginal_tax_monotone state_NY 45000 60000);
    [apply state_NY_table | assumption..].
Defined.




(** ** The federal estimator *)

Lemma fed_brackets_lookup (k : string) :
  FED_BRACKETS_2025 !! k =
  if decide (k = "single") then Some fed_single
  else if decide (k = "mfj") then Some fed_mfj
  else if decide (k = "hoh") then Some fed_hoh
  else None.
Proof.
  unfold FED_BRACKETS_2025.
  repeat (rewrite lookup_insert; case_decide; subst;
          [repeat case_decide; congruence|]).
  rewrite lookup_empty. by repeat case_decide.
Qed.

Lemma fed_deduction_lookup (k : string) :
  FED_STANDARD_DEDUCTION_2025 !! k =
  if decide (k = "single") then Some 15000%Z
  else if decide (k = "mfj") then Some 30000%Z
  else if decide (k = "hoh") then Some 22500%Z
  else None.
Proof.
  unfold FED_STANDARD_DEDUCTION_2025.
  repeat (rewrite lookup_insert; case_decide; subst;
          [repeat case_decide; congruence|]).
  rewrite lookup_empty. by repeat case_decide.
Qed.

(** The federal estimator never raises: it finds the deduction and the
    table of the selected status, which is one of the three federal ones. *)
Lemma estimate_federal_run (g : pyfloat) (fs : string) :
  ∃ ded tbl,
    (ded, tbl) ∈ [(15000%Z, fed_single); (30000%Z, fed_mfj);
                  (22500%Z, fed_hoh)] ∧
    FED_STANDARD_DEDUCTION_2025 !! fed_key fs = Some ded ∧
    FED_BRACKETS_2025 !! fed_key fs = Some tbl ∧
    estimate_federal_tax_2025 g fs =
      Ok (FedResult (F.of_Z ded)
            (F.max F.zero (F.sub g (F.of_Z ded)))
            (calc_marginal_tax (F.max F.zero (F.sub g (F.of_Z ded))) tbl)).
Proof.
  unfold estimate_federal_tax_2025, fed_key.
  rewrite (fed_brackets_lookup (Str.lower fs)).
  destruct (decide (Str.lower fs = "single")) as [->|H1].
  { exists 15000%Z, fed_single. rewrite bool_decide_eq_true_2 by set_solver.
    split; [set_solver|]. by repeat split. }
  destruct (decide (Str.lower fs = "mfj")) as [->|H2].
  { exists 30000%Z, fed_mfj. rewrite bool_decide_eq_true_2 by set_solver.
    split; [set_solver|]. by repeat split. }
  destruct (decide (Str.lower fs = "hoh")) as [->|H3].
  { exists 22500%Z, fed_hoh. rewrite bool_decide_eq_true_2 by set_solver.
    split; [set_solver|]. by repeat split. }
  exists 15000%Z, fed_single.
  rewrite bool_decide_eq_false_2
    by (rewrite !not_elem_of_cons, elem_of_nil; tauto).
  split; [set_solver|]. by repeat split.
Qed.

Lemma fmax_zero_sub (x : Q) (d : Z) :
  F.max F.zero (F.sub (Fin x) (F.of_Z d)) ≡ Fin (Qmax 0 (x - inject_Z d)).
Proof. unfold F.sub, F.of_Z. simpl. apply fmax_zero_fin. Qed.

(** C4.  For every gross income and every filing status string, the federal
    estimator selects the status case-insensitively among single, mfj and
    hoh and falls back to single; it returns the standard deduction of that
    status, taxable income max(0, gross − deduction) and the marginal tax of
    that taxable income on the table of that status.  A gross income of
    60000 filed as single gives deduction 15000, taxable income 45000 and
    federal tax 5161.50. *)
Theorem estimate_federal_tax_2025_spec (x : Q) (filing_status : string) :
  (∃ ded tbl r,
      FED_STANDARD_DEDUCTION_2025 !! fed_key filing_status = Some ded ∧
      FED_BRACKETS_2025 !! fed_key filing_status = Some tbl ∧
      estimate_federal_tax_2025 (Fin x) filing_status = Ok r ∧
      standard_deduction r = F.of_Z ded ∧
      taxable_income r ≡ Fin (Qmax 0 (x - inject_Z ded)) ∧
      federal_tax r = calc_marginal_tax (taxable_income r) tbl) ∧
  (∃ r, estimate_federal_tax_2025 (Fin 60000) "single" = Ok r ∧
      standard_deduction r ≡ Fin 15000 ∧
      taxable_income r ≡ Fin 45000 ∧
      federal_tax r ≡ Fin 5161.50).
Proof.
  split.
  - destruct (estimate_federal_run (Fin x) filing_status)
      as (ded & tbl & _ & Hd & Hb & Hrun).
    eexists ded, tbl, _. repeat split; [done|done|exact Hrun|..]; simpl.
    + reflexivity.
    + apply fmax_zero_sub.
    + reflexivity.
  - eexists. split; [by vm_compute|]. by vm_compute.
Qed.

(** ** The state estimator *)

Lemma state_brackets_lookup (k : string) :
  STATE_BRACKETS_2025_SINGLE !! k =
  if decide (k = "CA") then Some state_CA
  else if decide (k = "NY") then Some state_NY
  else if decide (k = "WA") then Some no_income_tax
  else if decide (k = "FL") then Some no_income_tax
  else None.
Proof.
  unfold STATE_BRACKETS_2025_SINGLE.
  repeat (rewrite lookup_insert; case_decide; subst;
          [repeat case_decide; congruence|]).
  rewrite lookup_empty. by repeat case_decide.
Qed.

(** The state estimator uses one of three tables. *)
Lemma estimate_state_run (g : pyfloat) (code : string) :
  ∃ tbl, tbl ∈ [state_CA; state_NY; no_income_tax] ∧
    estimate_state_tax_2025_single g code =
      StateResult (F.max F.zero g) (calc_marginal_tax (F.max F.zero g) tbl).
Proof.
  unfold estimate_state_tax_2025_single.
  rewrite state_brackets_lookup.
  repeat case_decide; simpl; eexists; (split; [|reflexivity]); set_solver.
Qed.

Lemma fmax_zero_eq (x : Q) :
  F.max F.zero (Fin x) = Fin (if Qltb 0 x then x else 0).
Proof. unfold F.max. simpl. by destruct (Qltb 0 x). Qed.

(** A zero-rate catch-all bracket taxes nothing. *)
Lemma calc_marginal_tax_no_tax (x : Q) :
  calc_marginal_tax (Fin x) [(PInf, 0.0)] ≡ Fin 0.
Proof.
  etransitivity;
    [apply calc_marginal_tax_banded, no_income_tax_table|].
  apply feqv_fin. unfold spec_compute. simpl.
  destruct (Qlt_le_dec 0 (Qmax 0 x)); [|reflexivity].
  destruct (Qlt_le_dec 0 (Qmax 0 x)); lra.
Qed.

(** C5.  For every gross income and every state code that does not match,
    in upper case, one of the supported states CA, NY, WA and FL, the state
    estimator finds no table, falls back to the single zero-rate catch-all
    bracket and returns state tax 0 on taxable income max(0, gross); the
    marginal calculator on the table [(inf, 0.0)] returns 0 for any
    income x >= 0. *)
Theorem estimate_state_unsupported (x : Q) (state_code : string) :
  Str.upper state_code ∉ SUPPORTED_STATES.*1 →
  STATE_BRACKETS_2025_SINGLE !! Str.upper state_code = None ∧
  estimate_state_tax_2025_single (Fin x) state_code =
    StateResult (F.max F.zero (Fin x))
      (calc_marginal_tax (F.max F.zero (Fin x)) [(PInf, 0.0)]) ∧
  state_tax (estimate_state_tax_2025_single (Fin x) state_code) ≡ Fin 0 ∧
  state_taxable_income (estimate_state_tax_2025_single (Fin x) state_code)
    ≡ Fin (Qmax 0 x) ∧
  (∀ y, 0 <= y → calc_marginal_tax (Fin y) [(PInf, 0.0)] ≡ Fin 0).
Proof.
  intros Hcode. simpl in Hcode.
  rewrite !not_elem_of_cons, elem_of_nil in Hcode.
  destruct Hcode as (H1 & H2 & H3 & H4 & _).
  assert (STATE_BRACKETS_2025_SINGLE !! Str.upper state_code = None) as Hnone.
  { rewrite state_brackets_lookup. by repeat case_decide. }
  split; [exact Hnone|].
  unfold estimate_state_tax_2025_single. cbv zeta. rewrite Hnone.
  simpl default.
  split; [reflexivity|]. cbn [state_tax state_taxable_income].
  split; [|split].
  - rewrite fmax_zero_eq. apply calc_marginal_tax_no_tax.
  - apply fmax_zero_fin.
  - intros y _. apply calc_marginal_tax_no_tax.
Qed.

(** Texas is not in the demo set. *)
Lemma estimate_state_unsupported_witness :
  (Str.upper "tx" ∉ SUPPORTED_STATES.*1) ∧
  state_tax (estimate_state_tax_2025_single (Fin 60000) "tx") ≡ Fin 0 ∧
  state_taxable_income (estimate_state_tax_2025_single (Fin 60000) "tx")
    ≡ Fin (Qmax 0 60000).
Proof.
  assert (Str.upper "tx" ∉ SUPPORTED_STATES.*1) as H.
  { apply (bool_decide_eq_false_1 (Str.upper "tx" ∈ SUPPORTED_STATES.*1)).
    by vm_compute. }
  split; [exact H|].
  destruct (estimate_state_unsupported 60000 "tx" H) as (_ & _ & H1 & H2 & _).
  split; [exact H1 | exact H2].
Defined.

(** ** The estimate route *)

Lemma bind_Ok {A B : Type} (m : result A) (f : A → result B) (b : B) :
  m ≫= f = Ok b → ∃ a, m = Ok a ∧ f a = Ok b.
Proof. destruct m as [a|e]; simpl; [eauto|discriminate]. Qed.

Lemma fltb_proper (a a' b b' : pyfloat) :
  a ≡ a' → b ≡ b' → F.ltb a b = F.ltb a' b'.
Proof.
  destruct a, a', b, b'; simpl; try contradiction; try reflexivity.
  unfold equiv, pyfloat_equiv, Qltb. simpl. intros H1 H2. by rewrite H1, H2.
Qed.

(** [max(0.0, y)] is infinite or a non-negative number, never nan. *)
Lemma fmax_zero_cases (y : pyfloat) :
  F.max F.zero y = PInf ∨ ∃ q, F.max F.zero y = Fin q ∧ 0 <= q.
Proof.
  destruct y as [q| | |]; unfold F.max; simpl; eauto.
  - right. destruct (Qltb 0 q) eqn:E; qprop; eexists; split; eauto; lra.
  - right. exists 0. split; [done|lra].
  - right. exists 0. split; [done|lra].
Qed.

Lemma fmax_zero_nonneg (y : pyfloat) : F.ltb (F.max F.zero y) F.zero = false.
Proof.
  destruct (fmax_zero_cases y) as [->|(q & -> & Hq)]; [done|].
  simpl. destruct (Qltb q 0) eqn:E; qprop; [lra|done].
Qed.

Lemma fmax_zero_negative (x : Q) : x <= 0 → F.max F.zero (Fin x) = Fin 0.
Proof.
  intros H. rewrite fmax_zero_eq.
  destruct (Qltb 0 x) eqn:E; qprop; [lra|done].
Qed.

Lemma calc_marginal_tax_zero (tbl : list bracket) :
  calc_marginal_tax (Fin 0) tbl = Fin 0.
Proof.
  unfold calc_marginal_tax. rewrite fmax_zero_negative by lra.
  apply marginal_loop_done. lra.
Qed.

Lemma calc_marginal_tax_fin_nonneg (tbl : list bracket) (x : Q) :
  bracket_table tbl → F.ltb (calc_marginal_tax (Fin x) tbl) F.zero = false.
Proof.
  intros Htbl.
  rewrite (fltb_proper _ (Fin (spec_compute x tbl)) _ F.zero);
    [|by apply calc_marginal_tax_banded|done].
  simpl. destruct (Qltb (spec_compute x tbl) 0) eqn:E; qprop; [|done].
  pose proof (banded_nonneg tbl (bracket_ok_rate _ (proj1 Htbl))
                (Qmax 0 x) (Fin 0)) as Hnn.
  unfold spec_compute in E. lra.
Qed.

Lemma tables_ok (tbl : list bracket) : tbl ∈ tables → bracket_table tbl.
Proof.
  unfold tables. rewrite !elem_of_cons, elem_of_nil.
  intros [->|[->|[->|[->|[->|[->|[]]]]]]].
  - apply fed_single_table.
  - apply fed_mfj_table.
  - apply fed_hoh_table.
  - apply state_CA_table.
  - apply state_NY_table.
  - apply no_income_tax_table.
Qed.

(** On the tables of the program the tax of a clamped income is never
    negative, whatever float the income is. *)
Lemma calc_marginal_tax_nonneg (g : pyfloat) (tbl : list bracket) :
  tbl ∈ tables →
  F.ltb (calc_marginal_tax (F.max F.zero g) tbl) F.zero = false.
Proof.
  intros Hin.
  destruct (fmax_zero_cases g) as [->|(q & -> & _)].
  - revert Hin. unfold tables. rewrite !elem_of_cons, elem_of_nil.
    intros [->|[->|[->|[->|[->|[->|[]]]]]]]; by vm_compute.
  - by apply calc_marginal_tax_fin_nonneg, tables_ok.
Qed.

Lemma fadd_nonneg (a b : pyfloat) :
  F.ltb a F.zero = false → F.ltb b F.zero = false →
  F.ltb (F.add a b) F.zero = false.
Proof.
  destruct a as [p| | |], b as [q| | |]; simpl; try done.
  intros Ha Hb. qprop. destruct (Qltb (p + q) 0) eqn:E; qprop; [lra|done].
Qed.

(** What the composition of the two estimators returns. *)
Lemma compose_estimate_run (g : pyfloat) (fs st : string) :
  ∃ ded ftbl stbl,
    (ded, ftbl) ∈ [(15000%Z, fed_single); (30000%Z, fed_mfj);
                   (22500%Z, fed_hoh)] ∧
    stbl ∈ [state_CA; state_NY; no_income_tax] ∧
    let taxable := F.max F.zero (F.sub g (F.of_Z ded)) in
    let fed := FedResult (F.of_Z ded) taxable (calc_marginal_tax taxable ftbl) in
    let sta :=
      StateResult (F.max F.zero g)
        (calc_marginal_tax (F.max F.zero g) stbl) in
    let total := F.add (federal_tax fed) (state_tax sta) in
    compose_estimate g fs st =
      Ok (EstimateResponse g fs st fed sta total
            (F.max F.zero (F.sub g total))).
Proof.
  destruct (estimate_federal_run g fs) as (ded & ftbl & Hf & _ & _ & Hfed).
  destruct (estimate_state_run g st) as (stbl & Hs & Hst).
  exists ded, ftbl, stbl. split; [done|]. split; [done|].
  unfold compose_estimate. rewrite Hfed, Hst. reflexivity.
Qed.

(** A response of the estimate route has no negative tax and no negative
    net income. *)
Lemma compose_estimate_nonneg (g : pyfloat) (fs st : string) r :
  compose_estimate g fs st = Ok r →
  F.ltb (federal_tax (est_federal r)) F.zero = false ∧
  F.ltb (state_tax (est_state_detail r)) F.zero = false ∧
  F.ltb (est_total_tax r) F.zero = false ∧
  F.ltb (est_net_annual r) F.zero = false.
Proof.
  destruct (compose_estimate_run g fs st)
    as (ded & ftbl & stbl & Hf & Hs & Hrun).
  cbv zeta in Hrun. rewrite Hrun. intros [= <-]. simpl.
  assert (ftbl ∈ tables) as Hft.
  { revert Hf. unfold tables. rewrite !elem_of_cons, !elem_of_nil.
    intros [[= _ ->]|[[= _ ->]|[[= _ ->]|[]]]]; tauto. }
  assert (stbl ∈ tables) as Hstt.
  { revert Hs. unfold tables. rewrite !elem_of_cons, !elem_of_nil.
    intros [->|[->|[->|[]]]]; tauto. }
  pose proof (calc_marginal_tax_nonneg (F.sub g (F.of_Z ded)) ftbl Hft).
  pose proof (calc_marginal_tax_nonneg g stbl Hstt).
  repeat split; try done.
  - by apply fadd_nonneg.
  - apply fmax_zero_nonneg.
Qed.

(** A negative gross income is taxed nothing and leaves nothing. *)
Lemma compose_estimate_negative (x : Q) (fs st : string) :
  x < 0 →
  ∃ r, compose_estimate (Fin x) fs st = Ok r ∧
    est_gross_annual r = Fin x ∧ est_filing_status r = fs ∧ est_state r = st ∧
    taxable_income (est_federal r) ≡ Fin 0 ∧
    state_taxable_income (est_state_detail r) ≡ Fin 0 ∧
    federal_tax (est_federal r) ≡ Fin 0 ∧
    state_tax (est_state_detail r) ≡ Fin 0 ∧
    est_total_tax r ≡ Fin 0 ∧
    est_net_annual r ≡ Fin 0.
Proof.
  intros Hx.
  destruct (compose_estimate_run (Fin x) fs st)
    as (ded & ftbl & stbl & Hf & _ & Hrun).
  cbv zeta in Hrun. eexists. split; [exact Hrun|].
  cbn [est_gross_annual est_filing_status est_state est_federal
       est_state_detail est_total_tax est_net_annual taxable_income
       state_taxable_income federal_tax state_tax].
  assert (0 <= inject_Z ded) as Hded.
  { revert Hf. rewrite !elem_of_cons, !elem_of_nil.
    intros [[= -> _]|[[= -> _]|[[= -> _]|[]]]]; by vm_compute. }
  change (F.sub (Fin x) (F.of_Z ded)) with (Fin (x + - inject_Z ded)).
  rewrite !fmax_zero_negative by lra.
  rewrite !calc_marginal_tax_zero.
  change (F.sub (Fin x) (F.add (Fin 0) (Fin 0))) with (Fin (x + - (0 + 0))).
  rewrite fmax_zero_negative by lra.
  repeat split; reflexivity.
Qed.

Lemma py_float_raise (v : json) (e : exn) :
  py_float v = Raise e → e = TypeError ∨ e = ValueError ∨ e = OverflowError.
Proof.
  destruct v as [|b|n|x|s|l|m]; simpl; try discriminate;
    try (intros [= <-]; tauto).
  - destruct (Z.abs n <? FLOAT_OVERFLOW)%Z; [discriminate|].
    intros [= <-]. tauto.
  - destruct (Parse.float_of_str s); [discriminate|]. intros [= <-]. tauto.
Qed.

Lemma float_or_total (v : json) (fallback : pyfloat) :
  fits_float v →
  ∃ x, float_or v fallback = Ok x ∧
       (py_float v = Ok x ∨ (x = fallback ∧ ∃ e, py_float v = Raise e)).
Proof.
  unfold float_or, fits_float. intros Hfit.
  destruct (py_float v) as [x|e] eqn:E; [by eauto|].
  destruct (py_float_raise v e E) as [-> | [-> | ->]];
    [exists fallback; eauto..|done].
Qed.

Lemma str_field_run (f : string → string) (v : json) (d : string) :
  absent_or_str v →
  ∃ s, str_method f (py_or v (JStr d)) = Ok s ∧
       (truthy v = false → s = f d).
Proof.
  unfold py_or. intros [Hv|[s ->]].
  - rewrite Hv. by eexists.
  - destruct (truthy (JStr s)) eqn:E; eexists; (split; [done|]); done.
Qed.

Lemma api_estimate_dict (body : json) (m : list (string * json)) :
  get_payload body = JDict m →
  api_estimate body =
    (gross_annual ← float_or (default (JInt 0) (assoc m "gross_annual"))
                      (Fin 0.0);
     filing_status ← str_method Str.lower
                       (py_or (field m "filing_status") (JStr "single"));
     state ← str_method Str.upper (py_or (field m "state") (JStr "WA"));
     compose_estimate gross_annual filing_status state).
Proof. unfold api_estimate. by intros ->. Qed.

Lemma compose_estimate_fields (g : pyfloat) (fs st : string) r :
  compose_estimate g fs st = Ok r →
  est_gross_annual r = g ∧ est_filing_status r = fs ∧ est_state r = st ∧
  est_state_detail r = estimate_state_tax_2025_single g st.
Proof.
  unfold compose_estimate. intros H.
  apply bind_Ok in H as (fed & _ & H). by injection H as <-.
Qed.

(** A response of the route is a response of the composition. *)
Lemma api_estimate_compose (body : json) r :
  api_estimate body = Ok r →
  ∃ g fs st, compose_estimate g fs st = Ok r.
Proof.
  unfold api_estimate. intros H.
  apply bind_Ok in H as (g0 & _ & H). apply bind_Ok in H as (g & _ & H).
  apply bind_Ok in H as (f0 & _ & H). apply bind_Ok in H as (fs & _ & H).
  apply bind_Ok in H as (s0 & _ & H). apply bind_Ok in H as (st & _ & H).
  eauto.
Qed.

(** C7.  A negative gross income gives federal taxable income 0, state
    taxable income 0, federal tax 0, state tax 0, total tax 0 and net
    income 0; and no request at all, whatever float its gross income is,
    gets a negative tax or a negative net income in its response. *)
Theorem api_estimate_negative_gross (x : Q) (fs st : string) :
  x < 0 →
  (∃ r, api_estimate (JDict [("gross_annual", JNum (Fin x));
                             ("filing_status", JStr fs);
                             ("state", JStr st)]) = Ok r ∧
     est_gross_annual r = Fin x ∧
     taxable_income (est_federal r) ≡ Fin 0 ∧
     state_taxable_income (est_state_detail r) ≡ Fin 0 ∧
     federal_tax (est_federal r) ≡ Fin 0 ∧
     state_tax (est_state_detail r) ≡ Fin 0 ∧
     est_total_tax r ≡ Fin 0 ∧
     est_net_annual r ≡ Fin 0) ∧
  (∀ body r, api_estimate body = Ok r →
     F.ltb (federal_tax (est_federal r)) F.zero = false ∧
     F.ltb (state_tax (est_state_detail r)) F.zero = false ∧
     F.ltb (est_total_tax r) F.zero = false ∧
     F.ltb (est_net_annual r) F.zero = false).
Proof.
  intros Hx. split.
  - erewrite api_estimate_dict by reflexivity.
    change (assoc _ "gross_annual") with (Some (JNum (Fin x))).
    change (field _ "filing_status") with (JStr fs).
    change (field _ "state") with (JStr st).
    destruct (str_field_run Str.lower (JStr fs) "single") as (fs' & -> & _);
      [right; eauto|].
    destruct (str_field_run Str.upper (JStr st) "WA") as (st' & -> & _);
      [right; eauto|].
    simpl.
    destruct (compose_estimate_negative x fs' st' Hx)
      as (r & Hr & Hg & _ & _ & Hzero).
    exists r. by repeat split; try apply Hzero.
  - intros body r Hr.
    apply api_estimate_compose in Hr as (g & fs' & st' & Hr).
    by apply (compose_estimate_nonneg g fs' st').
Qed.

(** A gross income of -1000, filed jointly in California. *)
Lemma api_estimate_negative_gross_witness :
  -1000 < 0 ∧
  ∃ r, api_estimate (JDict [("gross_annual", JNum (Fin (-1000)));
                            ("filing_status", JStr "mfj");
                            ("state", JStr "ca")]) = Ok r ∧
    est_total_tax r ≡ Fin 0 ∧ est_net_annual r ≡ Fin 0.
Proof.
  assert (-1000 < 0) as H by (by vm_compute).
  split; [exact H|].
  destruct (api_estimate_negative_gross (-1000) "mfj" "ca" H)
    as [(r & Hr & _ & _ & _ & _ & _ & Ht & Hn) _].
  exists r. split; [exact Hr|]. split; [exact Ht | exact Hn].
Defined.

(** C10, as stated, fails: the route raises on a request whose filing
    status is a number, on a request that is a non-empty list, and on a
    gross income that is an integer too large for a float. *)
Lemma api_estimate_raises :
  api_estimate (JDict [("filing_status", JNum (Fin 5))])
    = Raise AttributeError ∧
  api_estimate (JList [JNull]) = Raise AttributeError ∧
  api_estimate (JDict [("gross_annual", JInt (10 ^ 400))])
    = Raise OverflowError ∧
  ¬ (∀ body, ∃ r, api_estimate body = Ok r).
Proof.
  split; [by vm_compute|]. split; [by vm_compute|]. split; [by vm_compute|].
  intros H. destruct (H (JList [JNull])) as [r Hr]. by vm_compute in Hr.
Qed.

(** C10 (amended).  The estimate route returns a response for every request
    body that is a JSON object (or an empty value, read as the empty
    object) whose filing_status and state are each missing, empty or a
    string and whose gross_annual is not an integer too large for a float:
    a missing or empty filing_status becomes "single"; a missing or empty
    state becomes "WA", with state tax 0 when the gross income is finite;
    and a gross_annual that is missing, or that [float] rejects with
    TypeError or ValueError, becomes 0.0. *)
Theorem api_estimate_defaults (body : json) (m : list (string * json)) :
  get_payload body = JDict m →
  absent_or_str (field m "filing_status") →
  absent_or_str (field m "state") →
  fits_float (default (JInt 0) (assoc m "gross_annual")) →
  ∃ r, api_estimate body = Ok r ∧
    (truthy (field m "filing_status") = false →
       est_filing_status r = "single") ∧
    (truthy (field m "state") = false →
       est_state r = "WA" ∧
       (F.is_finite (est_gross_annual r) = true →
          state_tax (est_state_detail r) ≡ Fin 0)) ∧
    (assoc m "gross_annual" = None → est_gross_annual r ≡ Fin 0) ∧
    (∀ v e, assoc m "gross_annual" = Some v → py_float v = Raise e →
       est_gross_annual r ≡ Fin 0).
Proof.
  intros Hbody Hfs Hst Hfit. rewrite (api_estimate_dict body m Hbody).
  destruct (float_or_total (default (JInt 0) (assoc m "gross_annual"))
              (Fin 0.0) Hfit) as (g & -> & Hg).
  destruct (str_field_run Str.lower _ "single" Hfs) as (fs & -> & Hfs').
  destruct (str_field_run Str.upper _ "WA" Hst) as (st & -> & Hst').
  simpl.
  destruct (compose_estimate_run g fs st) as (? & ? & ? & _ & _ & Hrun).
  cbv zeta in Hrun. eexists. split; [exact Hrun|].
  destruct (compose_estimate_fields _ _ _ _ Hrun) as (-> & -> & -> & ->).
  split; [|split; [|split]].
  - intros Hc. by rewrite (Hfs' Hc).
  - intros Hc. rewrite (Hst' Hc). split; [done|]. intros Hfin.
    destruct g as [q| | |]; try discriminate.
    change (Str.upper "WA") with "WA".
    unfold estimate_state_tax_2025_single.
    change (Str.upper "WA") with "WA". rewrite state_brackets_lookup.
    simpl. rewrite fmax_zero_eq. apply calc_marginal_tax_no_tax.
  - intros Hc. rewrite Hc in Hg. simpl in Hg.
    destruct Hg as [[= <-]|[_ [e [=]]]]. reflexivity.
  - intros v e Hv He. rewrite Hv in Hg. simpl in Hg.
    destruct Hg as [Hg|[-> _]]; [congruence|done].
Qed.

(** A request with a gross income that is no number, no filing status and an
    empty state. *)
Lemma api_estimate_defaults_witness :
  let m := [("gross_annual", JStr "sixty"); ("state", JStr "")] in
  get_payload (JDict m) = JDict m ∧
  absent_or_str (field m "filing_status") ∧
  absent_or_str (field m "state") ∧
  fits_float (default (JInt 0) (assoc m "gross_annual")) ∧
  ∃ r, api_estimate (JDict m) = Ok r ∧
    est_filing_status r = "single" ∧ est_state r = "WA" ∧
    est_gross_annual r ≡ Fin 0.
Proof.
  intros m.
  assert (get_payload (JDict m) = JDict m) as H1 by reflexivity.
  assert (absent_or_str (field m "filing_status")) as H2 by (by left).
  assert (absent_or_str (field m "state")) as H3 by (by left).
  assert (fits_float (default (JInt 0) (assoc m "gross_annual"))) as H4
    by discriminate.
  split; [exact H1|]. split; [exact H2|]. split; [exact H3|].
  split; [exact H4|].
  destruct (api_estimate_defaults (JDict m) m H1 H2 H3 H4)
    as (r & Hr & Hfs & Hst & _ & Hg).
  exists r. split; [exact Hr|]. split; [by apply Hfs|].
  split; [by apply Hst|].
  by apply (Hg (JStr "sixty") ValueError).
Defined.

(** ** The net income routes *)

Lemma last_last_n {A : Type} (n : nat) (l : list A) (x : A) :
  (0 < n)%nat → last (last_n n (l ++ [x])) = Some x.
Proof.
  intros Hn. unfold last_n. rewrite drop_app_le.
  - apply last_snoc.
  - rewrite length_app. simpl. lia.
Qed.

Lemma known_frequency_unknown (f : string) :
  f ∉ FREQUENCIES → known_frequency f = "monthly".
Proof. intros H. unfold known_frequency. by rewrite bool_decide_eq_false_2. Qed.

Lemma known_frequency_known (f : string) :
  f ∈ FREQUENCIES → known_frequency f = f.
Proof. intros H. unfold known_frequency. by rewrite bool_decide_eq_true_2. Qed.

Lemma known_frequency_elem (f : string) : known_frequency f ∈ FREQUENCIES.
Proof.
  unfold known_frequency. case_bool_decide; [done|].
  unfold FREQUENCIES. set_solver.
Qed.

(** [annualize] itself leaves the amount of an unknown frequency as it is. *)
Lemma annualize_unknown (amount : pyfloat) (f : string) :
  Str.lower f ∉ FREQUENCIES → annualize amount f = amount.
Proof.
  unfold FREQUENCIES. rewrite !not_elem_of_cons.
  intros (H1 & H2 & H3 & H4 & _). unfold annualize.
  by rewrite !bool_decide_eq_false_2.
Qed.

(** The run of [api_save_net_income] on a request whose fields convert. *)
Lemma api_save_net_income_run (body : json) (m : list (string * json))
    (label f : string) (amount : pyfloat) (now_ms : Z) (now now_log : string)
    (d : disk) :
  get_payload body = JDict m →
  str_method (λ s, Str.take 60 (Str.strip s))
    (py_or (field m "label") (JStr "Net income")) = Ok label →
  float_or (default (JInt 0) (assoc m "net_amount")) (Fin 0.0)
    = Ok amount →
  str_method Str.lower (py_or (field m "frequency") (JStr "monthly")) = Ok f →
  let e := Entry now_ms now label amount (known_frequency f)
             (annualize amount (known_frequency f)) None in
  let data := default (Document (Some []) (Some [])) d in
  let entries := default [] (net_income_entries data) ++ [e] in
  api_save_net_income body now_ms now now_log d =
    (Ok (EntryOk e, 200%Z),
     Some (_log_activity (set_entries data (last_n 100 entries))
             (saved_message e) now_log)).
Proof.
  intros Hbody Hl Ha Hf. unfold api_save_net_income.
  rewrite Hbody. unfold mbind, io_bind, lift, dict_get. cbv beta iota.
  fold (field m "label"). rewrite Hl. cbv beta iota. rewrite Ha.
  cbv beta iota. fold (field m "frequency"). rewrite Hf.
  by destruct d.
Qed.

(** C6, as stated, fails: saving 100 with the frequency "daily" stores the
    entry as monthly, with annual equivalent 1200, not 100. *)
Lemma save_unknown_frequency_is_monthly :
  (Str.lower "daily" ∉ FREQUENCIES) ∧
  ∃ e doc,
    api_save_net_income
      (JDict [("net_amount", JNum (Fin 100)); ("frequency", JStr "daily")])
      0 "t0" "t1" None = (Ok (EntryOk e, 200%Z), Some doc) ∧
    net_income_entries doc = Some [e] ∧
    e_net_amount e = Fin 100 ∧
    e_frequency e = "monthly" ∧
    e_net_annual_equivalent e = Fin 1200 ∧
    ¬ e_net_annual_equivalent e ≡ e_net_amount e.
Proof.
  split.
  { apply (bool_decide_eq_false_1 (Str.lower "daily" ∈ FREQUENCIES)).
    by vm_compute. }
  eexists _, _. split; [by vm_compute|]. simpl.
  repeat split. by vm_compute.
Qed.

(** C6 (amended).  For every net amount and every frequency string whose
    lower case is outside the recognized set, the save route falls back to
    the monthly multiplier: the entry it stores last and returns has
    frequency "monthly" and annual equivalent 12 times the net amount.
    ([annualize] alone, given such a frequency, returns the amount
    unchanged.) *)
Theorem api_save_unknown_frequency (body : json) (m : list (string * json))
    (f : string) (amount : pyfloat) (now_ms : Z) (now now_log : string)
    (d : disk) :
  get_payload body = JDict m →
  absent_or_str (field m "label") →
  float_or (default (JInt 0) (assoc m "net_amount")) (Fin 0.0)
    = Ok amount →
  assoc m "frequency" = Some (JStr f) →
  Str.lower f ∉ FREQUENCIES →
  ∃ e doc entries,
    api_save_net_income body now_ms now now_log d
      = (Ok (EntryOk e, 200%Z), Some doc) ∧
    net_income_entries doc = Some entries ∧
    last entries = Some e ∧
    e_net_amount e = amount ∧
    e_frequency e = "monthly" ∧
    e_net_annual_equivalent e = F.mul amount (F.of_Z 12) ∧
    annualize amount f = amount.
Proof.
  intros Hbody Hlabel Ha Hf Hunknown.
  destruct (str_field_run (λ s, Str.take 60 (Str.strip s)) _ "Net income"
              Hlabel) as (label & Hl & _).
  assert (∃ f', str_method Str.lower
                  (py_or (field m "frequency") (JStr "monthly")) = Ok f' ∧
                known_frequency f' = "monthly") as (f' & Hf' & Hk).
  { unfold field. rewrite Hf. simpl. unfold py_or.
    destruct (truthy (JStr f)); simpl; eexists; (split; [done|]).
    - by apply known_frequency_unknown.
    - done. }
  eexists _, _, _. split.
  { apply (api_save_net_income_run body m label f' amount); eauto. }
  simpl. rewrite Hk. split; [done|].
  split; [by apply last_last_n; lia|].
  repeat split. by apply annualize_unknown.
Qed.

(** Saving 100 with the frequency "Daily" into a new file. *)
Lemma api_save_unknown_frequency_witness :
  let m := [("net_amount", JNum (Fin 100)); ("frequency", JStr "Daily")] in
  (Str.lower "Daily" ∉ FREQUENCIES) ∧
  ∃ e doc entries,
    api_save_net_income (JDict m) 0 "t0" "t1" None
      = (Ok (EntryOk e, 200%Z), Some doc) ∧
    net_income_entries doc = Some entries ∧
    last entries = Some e ∧
    e_net_amount e = Fin 100 ∧
    e_frequency e = "monthly" ∧
    e_net_annual_equivalent e = F.mul (Fin 100) (F.of_Z 12) ∧
    annualize (Fin 100) "Daily" = Fin 100.
Proof.
  intros m.
  assert (Str.lower "Daily" ∉ FREQUENCIES) as H.
  { apply (bool_decide_eq_false_1 (Str.lower "Daily" ∈ FREQUENCIES)).
    by vm_compute. }
  split; [exact H|].
  apply (api_save_unknown_frequency (JDict m) m "Daily" (Fin 100)
           0 "t0" "t1" None);
    [reflexivity | by left | reflexivity | reflexivity | exact H].
Defined.

(** The route on a file with a latest entry: either it raises before it
    has changed anything, or it replaces the last entry, logs and saves. *)
Lemma api_update_latest_run (body : json) (now now_log : string)
    (doc : document) (entries : list entry) (old : entry) :
  net_income_entries doc = Some entries → last entries = Some old →
  api_update_latest_net_income body now now_log (Some doc) =
    match edited (get_payload body) old now with
    | Ok latest =>
        (Ok (EntryOk latest, 200%Z),
         Some (_log_activity
                 (set_entries doc
                    (<[(length entries - 1)%nat := latest]> entries))
                 (edited_message latest) now_log))
    | Raise e => (Raise e, Some doc)
    end.
Proof.
  intros Hentries Hlast.
  unfold api_update_latest_net_income, edited, mbind at 1, io_bind at 1.
  simpl _load_data. cbv beta iota. rewrite Hentries.
  change (default [] (Some entries)) with entries.
  rewrite Hlast. unfold mbind, io_bind, result_bind, lift.
  destruct (dict_get (get_payload body) "label" JNull) as [l|]; [|done].
  destruct (str_method _ _) as [label|]; [|done].
  destruct (dict_get (get_payload body) "net_amount" _) as [n|]; [|done].
  destruct (float_or _ _) as [amount|]; [|done].
  destruct (dict_get (get_payload body) "frequency" JNull) as [f|]; [|done].
  by destruct (str_method _ _) as [frequency|].
Qed.

Lemma py_or_str (v : json) (d : string) :
  absent_or_str v → ∃ s, py_or v (JStr d) = JStr s.
Proof.
  unfold py_or. intros [->|[s ->]]; [by eauto|].
  destruct (truthy (JStr s)); eauto.
Qed.

Lemma str_field2_ok (f : string → string) (v : json) (d1 d2 : string) :
  absent_or_str v →
  ∃ s, str_method f (py_or (py_or v (JStr d1)) (JStr d2)) = Ok s.
Proof.
  intros Hv. destruct (py_or_str v d1 Hv) as [s1 ->].
  destruct (py_or_str (JStr s1) d2) as [s2 ->]; [right; eauto|].
  by eexists.
Qed.

Lemma fits_float_default (m : list (string * json)) (k : string)
    (x : pyfloat) :
  fits_float (field m k) → fits_float (default (JNum x) (assoc m k)).
Proof. unfold field, fits_float. by destruct (assoc m k). Qed.

(** A request whose label and frequency are missing, empty or strings, and
    whose amount is no integer too large for a float, is edited without an
    exception. *)
Lemma edited_run (m : list (string * json)) (old : entry) (now : string) :
  absent_or_str (field m "label") → absent_or_str (field m "frequency") →
  fits_float (field m "net_amount") →
  ∃ latest, edited (JDict m) old now = Ok latest ∧
    e_id latest = e_id old ∧ e_ts latest = e_ts old ∧
    float_or (default (JNum (e_net_amount old)) (assoc m "net_amount"))
      (e_net_amount old) = Ok (e_net_amount latest) ∧
    e_frequency latest ∈ FREQUENCIES ∧
    (∀ s, field m "frequency" = JStr s → Str.lower s ∈ FREQUENCIES →
       e_frequency latest = Str.lower s) ∧
    e_net_annual_equivalent latest
      = annualize (e_net_amount latest) (e_frequency latest) ∧
    e_ts_edited latest = Some now.
Proof.
  intros Hl Hf Hfit. unfold edited, dict_get, mbind, result_bind.
  cbv beta iota. fold (field m "label"). fold (field m "frequency").
  destruct (str_field2_ok (λ s, Str.take 60 (Str.strip s))
              (field m "label") (e_label old) "Net income" Hl) as [label ->].
  destruct (float_or_total
              (default (JNum (e_net_amount old)) (assoc m "net_amount"))
              (e_net_amount old)
              (fits_float_default m "net_amount" _ Hfit)) as (amount & Ha & _).
  rewrite Ha.
  assert (∃ f, str_method Str.lower
            (py_or (py_or (field m "frequency") (JStr (e_frequency old)))
               (JStr "monthly")) = Ok f ∧
            (∀ s, field m "frequency" = JStr s →
               Str.lower s ∈ FREQUENCIES → f = Str.lower s))
    as (f & -> & Hfs).
  { destruct (str_field2_ok Str.lower (field m "frequency")
                (e_frequency old) "monthly" Hf) as [f Hrun].
    exists f. split; [done|]. intros s Hs Hin. rewrite Hs in Hrun.
    assert (truthy (JStr s) = true) as Ht.
    { simpl. apply negb_true_iff, bool_decide_eq_false. intros ->.
      revert Hin. unfold FREQUENCIES. rewrite !elem_of_cons, elem_of_nil.
      by intros [|[|[|[|[|]]]]]. }
    assert (py_or (py_or (JStr s) (JStr (e_frequency old))) (JStr "monthly")
            = JStr s) as Hp.
    { unfold py_or. rewrite Ht. by rewrite Ht. }
    rewrite Hp in Hrun. simpl in Hrun. congruence. }
  eexists. split; [done|].
  cbn [e_id e_ts e_net_amount e_frequency e_net_annual_equivalent
       e_ts_edited].
  repeat split; try done.
  - apply known_frequency_elem.
  - intros s Hs Hin. rewrite (Hfs s Hs Hin). by apply known_frequency_known.
Qed.

(** C8, as stated, fails: when the file does not exist, the state before
    the first save, there is no entry to edit and the route answers with the
    error, but [_load_data] has written the initial document before. *)
Lemma api_update_latest_creates_file :
  entries_of None = [] ∧
  api_update_latest_net_income (JDict [("net_amount", JInt 5)]) "t1" "t2" None
    = (Ok (Failure "No net income entry to edit.", 400%Z),
       Some (Document (Some []) (Some []))) ∧
  Some (Document (Some []) (Some [])) ≠ (None : disk).
Proof. split; [done|]. split; [by vm_compute|discriminate]. Qed.

(** C8 (amended).  In every state without a net income entry (an empty or
    absent list, or no file) the edit route answers, for any request, with
    the error "No net income entry to edit." and status 400; it adds no
    entry and logs no activity.  An existing file is left exactly as it was;
    when there is no file, loading creates it with an empty list of entries
    and an empty activity log. *)
Theorem api_update_latest_no_entry (body : json) (now now_log : string)
    (d : disk) :
  entries_of d = [] →
  ∃ d',
    api_update_latest_net_income body now now_log d
      = (Ok (Failure "No net income entry to edit.", 400%Z), d') ∧
    entries_of d' = [] ∧
    activity_of d' = activity_of d ∧
    (∀ doc, d = Some doc → d' = Some doc) ∧
    (d = None → d' = Some (Document (Some []) (Some []))).
Proof.
  intros Hempty. destruct d as [doc|].
  - exists (Some doc). simpl in Hempty.
    unfold api_update_latest_net_income, mbind, io_bind. simpl _load_data.
    cbv beta iota. rewrite Hempty. by repeat split.
  - exists (Some (Document (Some []) (Some []))). by repeat split.
Qed.

(** When the file does not exist, [_load_data] creates it with two empty
    lists before the route answers with the same error. *)
Lemma api_update_latest_no_file (body : json) (now now_log : string) :
  api_update_latest_net_income body now now_log None =
    (Ok (Failure "No net income entry to edit.", 400%Z),
     Some (Document (Some []) (Some []))).
Proof. reflexivity. Qed.

(** A file with one activity and no entry. *)
Lemma api_update_latest_no_entry_witness :
  let doc := Document (Some []) (Some [ActivityItem "t0" "started"]) in
  entries_of (Some doc) = [] ∧
  ∃ d',
    api_update_latest_net_income (JDict [("frequency", JStr "weekly")])
      "t1" "t2" (Some doc)
      = (Ok (Failure "No net income entry to edit.", 400%Z), d') ∧
    d' = Some doc.
Proof.
  intros doc.
  assert (entries_of (Some doc) = []) as H by reflexivity.
  split; [exact H|].
  destruct (api_update_latest_no_entry (JDict [("frequency", JStr "weekly")])
              "t1" "t2" (Some doc) H) as (d' & Hrun & _ & _ & Hsame & _).
  exists d'. split; [exact Hrun|]. by apply Hsame.
Defined.

(** C9.  On a file whose list of net income entries is not empty, the edit
    route changes the last entry only: the list keeps its length and every
    entry before the last is as it was (also when the route raises, in which
    case nothing changes).  For a request whose label and frequency are
    missing, empty or strings, and whose amount is no integer too large for
    a float, the route answers with the edited entry, which is the new last
    entry: it keeps the id and the creation time, takes the
    requested amount and frequency, has the annual equivalent recomputed by
    [annualize] from that amount and frequency, and carries the edit time.
    An entry saved as 5000 monthly has annual equivalent 60000; edited to
    weekly it has annual equivalent 260000, in a list of unchanged length. *)
Theorem api_update_latest_in_place (body : json) (now now_log : string)
    (doc : document) (entries : list entry) :
  net_income_entries doc = Some entries → entries ≠ [] →
  (∃ r doc' entries',
     api_update_latest_net_income body now now_log (Some doc)
       = (r, Some doc') ∧
     net_income_entries doc' = Some entries' ∧
     length entries' = length entries ∧
     (∀ i, (i < length entries - 1)%nat → entries' !! i = entries !! i) ∧
     (∀ m, get_payload body = JDict m →
        absent_or_str (field m "label") →
        absent_or_str (field m "frequency") →
        fits_float (field m "net_amount") →
        ∃ old latest,
          last entries = Some old ∧
          r = Ok (EntryOk latest, 200%Z) ∧
          last entries' = Some latest ∧
          e_id latest = e_id old ∧ e_ts latest = e_ts old ∧
          float_or (default (JNum (e_net_amount old)) (assoc m "net_amount"))
            (e_net_amount old) = Ok (e_net_amount latest) ∧
          e_frequency latest ∈ FREQUENCIES ∧
          (∀ s, field m "frequency" = JStr s →
             Str.lower s ∈ FREQUENCIES → e_frequency latest = Str.lower s) ∧
          e_net_annual_equivalent latest
            = annualize (e_net_amount latest) (e_frequency latest) ∧
          e_ts_edited latest = Some now)) ∧
  (∀ now_ms t0 t1 t2 t3, ∃ e1 d1 e2 d2,
     api_save_net_income
       (JDict [("net_amount", JInt 5000); ("frequency", JStr "monthly")])
       now_ms t0 t1 None = (Ok (EntryOk e1, 200%Z), Some d1) ∧
     net_income_entries d1 = Some [e1] ∧
     e_net_annual_equivalent e1 = Fin 60000 ∧
     api_update_latest_net_income
       (JDict [("net_amount", JInt 5000); ("frequency", JStr "weekly")])
       t2 t3 (Some d1) = (Ok (EntryOk e2, 200%Z), Some d2) ∧
     net_income_entries d2 = Some [e2] ∧
     e_net_amount e2 = Fin 5000 ∧ e_frequency e2 = "weekly" ∧
     e_net_annual_equivalent e2 = Fin 260000 ∧
     e_ts_edited e2 = Some t2).
Proof.
  intros Hentries Hne. split.
  - destruct (last entries) as [old|] eqn:Hlast;
      [|by apply last_None in Hlast].
    assert (0 < length entries)%nat as Hlen.
    { destruct entries; [done|simpl; lia]. }
    rewrite (api_update_latest_run body now now_log doc entries old
               Hentries Hlast).
    destruct (edited (get_payload body) old now) as [latest|e] eqn:Hed.
    + eexists _, _, _. split; [reflexivity|]. split; [reflexivity|].
      split; [apply length_insert|].
      split; [intros i Hi; apply list_lookup_insert_ne; lia|].
      intros m Hbody Hl Hf Hfit. rewrite Hbody in Hed.
      destruct (edited_run m old now Hl Hf Hfit)
        as (latest' & Hrun & Hprops).
      rewrite Hrun in Hed. injection Hed as ->.
      exists old, latest. split; [done|]. split; [done|].
      split; [|exact Hprops].
      rewrite last_lookup, length_insert.
      replace (pred (length entries)) with (length entries - 1)%nat by lia.
      apply list_lookup_insert_eq. lia.
    + exists (Raise e), doc, entries. split; [reflexivity|].
      split; [done|]. split; [done|]. split; [done|].
      intros m Hbody Hl Hf Hfit. rewrite Hbody in Hed.
      destruct (edited_run m old now Hl Hf Hfit) as (latest' & Hrun & _).
      congruence.
  - intros now_ms t0 t1 t2 t3.
    set (e1 := Entry now_ms t0 "Net income" (Fin 5000) "monthly"
                 (Fin 60000) None).
    set (e2 := Entry now_ms t0 "Net income" (Fin 5000) "weekly"
                 (Fin 260000) (Some t2)).
    set (a1 := ActivityItem t1 "Saved net income: 5,000.00 (monthly)").
    set (a2 := ActivityItem t3 "Edited latest net income: 5,000.00 (weekly)").
    exists e1, (Document (Some [e1]) (Some [a1])),
           e2, (Document (Some [e2]) (Some [a1; a2])).
    split; [by vm_compute|]. split; [done|]. split; [done|].
    split; [by vm_compute|]. by repeat split.
Qed.

(** A file with two entries, the second of which is edited to weekly. *)
Lemma api_update_latest_in_place_witness :
  let e0 := Entry 1 "t0" "rent" (Fin 900) "monthly" (Fin 10800) None in
  let e1 := Entry 2 "t1" "pay" (Fin 5000) "monthly" (Fin 60000) None in
  let doc := Document (Some [e0; e1]) (Some []) in
  net_income_entries doc = Some [e0; e1] ∧ [e0; e1] ≠ [] ∧
  ∃ r doc' entries',
    api_update_latest_net_income (JDict [("frequency", JStr "Weekly")])
      "t2" "t3" (Some doc) = (r, Some doc') ∧
    net_income_entries doc' = Some entries' ∧
    length entries' = 2%nat ∧
    entries' !! 0%nat = Some e0 ∧
    ∃ latest, last entries' = Some latest ∧
      e_frequency latest = "weekly" ∧
      e_net_annual_equivalent latest
        = annualize (e_net_amount latest) (e_frequency latest) ∧
      e_ts_edited latest = Some "t2".
Proof.
  intros e0 e1 doc.
  assert (net_income_entries doc = Some [e0; e1]) as H1 by reflexivity.
  assert ([e0; e1] ≠ []) as H2 by discriminate.
  split; [exact H1|]. split; [exact H2|].
  destruct (api_update_latest_in_place (JDict [("frequency", JStr "Weekly")])
              "t2" "t3" doc [e0; e1] H1 H2)
    as [(r & doc' & entries' & Hrun & Hdoc & Hlen & Hframe & Hedit) _].
  exists r, doc', entries'. split; [exact Hrun|]. split; [exact Hdoc|].
  split; [exact Hlen|]. split; [apply (Hframe 0%nat); simpl; lia|].
  destruct (Hedit [("frequency", JStr "Weekly")] eq_refl)
    as (old & latest & _ & _ & Hlast & _ & _ & _ & _ & Hfreq & Hann & Hts);
    [by left | right; by eexists | discriminate |].
  exists latest. split; [exact Hlast|].
  split; [by apply (Hfreq "Weekly"); [|vm_compute; set_solver]|].
  split; [exact Hann | exact Hts].
Defined.

(** * Further properties *)

(** ** The marginal tax calculator *)

(** X1.  An income that is not positive (zero, negative, [-inf] or [nan])
    is taxed 0 on every list of brackets, well formed or not. *)
Theorem calc_marginal_tax_not_positive (g : pyfloat) (tbl : list bracket) :
  F.ltb F.zero g = false → calc_marginal_tax g tbl = Fin 0.
Proof.
  intros Hg. unfold calc_marginal_tax, F.max. rewrite Hg.
  apply marginal_loop_done. lra.
Qed.

(** A negative income on a list of brackets that is no bracket table. *)
Lemma calc_marginal_tax_not_positive_witness :
  F.ltb F.zero (Fin (-250)) = false ∧
  calc_marginal_tax (Fin (-250)) [(NaN, 2); (Fin (-3), -1)] = Fin 0.
Proof.
  assert (F.ltb F.zero (Fin (-250)) = false) as H by reflexivity.
  split; [exact H|].
  exact (calc_marginal_tax_not_positive (Fin (-250))
           [(NaN, 2); (Fin (-3), -1)] H).
Defined.

(** X2.  An income inside the first band is taxed entirely at the first
    rate, whatever brackets follow. *)
Theorem calc_marginal_tax_first_band (x u rate : Q) (rest : list bracket) :
  0 <= x → x <= u →
  calc_marginal_tax (Fin x) ((Fin u, rate) :: rest) ≡ Fin (x * rate).
Proof.
  intros H0 Hu. unfold calc_marginal_tax. rewrite fmax_zero_eq.
  change F.zero with (Fin 0).
  destruct (Qltb 0 x) eqn:E; qprop.
  - rewrite marginal_loop_finite_bound.
    destruct (Qle_bool x 0) eqn:E1; qprop; [lra|]. cbv zeta.
    destruct (Qltb (u + - 0) x) eqn:E2; qprop; [lra|].
    rewrite Qltb_intro by lra.
    rewrite marginal_loop_done by lra. apply feqv_fin. lra.
  - rewrite marginal_loop_done by lra. apply feqv_fin.
    assert (x == 0) as -> by lra. lra.
Qed.

(** 10000 of taxable income, single filer: 10 % of it. *)
Lemma calc_marginal_tax_first_band_witness :
  0 <= 10000 ∧ 10000 <= 11925 ∧
  calc_marginal_tax (Fin 10000) fed_single ≡ Fin (10000 * 0.10).
Proof.
  assert (0 <= 10000) as H1 by (by vm_compute).
  assert (10000 <= 11925) as H2 by (by vm_compute).
  split; [exact H1|]. split; [exact H2|].
  exact (calc_marginal_tax_first_band 10000 11925 0.10 _ H1 H2).
Defined.

(** On a bracket table the tax of a finite income is a finite amount, the
    banded accumulation. *)
Lemma calc_marginal_tax_fin (x : Q) (tbl : list bracket) :
  bracket_table tbl →
  ∃ t, calc_marginal_tax (Fin x) tbl = Fin t ∧ t == spec_compute x tbl.
Proof.
  intros Htbl. pose proof (calc_marginal_tax_banded x tbl Htbl) as H.
  destruct (calc_marginal_tax (Fin x) tbl) as [t| | |]; try contradiction.
  by exists t.
Qed.

Lemma fmul_nonneg (band : pyfloat) (rate : Q) :
  F.ltb F.zero band = true → 0 <= rate →
  F.ltb (F.mul band (Fin rate)) F.zero = false.
Proof.
  destruct band as [b| | |]; simpl; try done.
  - intros Hb Hr. qprop.
    pose proof (Qmult_le_0_compat b rate (Qlt_le_weak _ _ Hb) Hr).
    destruct (Qltb (b * rate) 0) eqn:E; qprop; [lra|done].
  - intros _ Hr. destruct (Qcompare rate 0) eqn:E; try done.
    apply Qlt_alt in E. lra.
Qed.

(** The loop never makes a tax negative that was not. *)
Lemma marginal_loop_nonneg (tbl : list bracket) :
  Forall (λ b : bracket, 0 <= b.2) tbl →
  ∀ tax remaining lower,
    F.ltb tax F.zero = false →
    F.ltb (marginal_loop tbl tax remaining lower) F.zero = false.
Proof.
  induction tbl as [|[upper rate] rest IH];
    intros Hr tax remaining lower Htax; [done|].
  apply Forall_cons in Hr as [Hrate Hr]. simpl in Hrate.
  cbn [marginal_loop]. cbv zeta.
  destruct (F.leb remaining F.zero); [done|].
  destruct (F.ltb F.zero (F.min remaining (F.sub upper lower))) eqn:Hband;
    [|by apply IH].
  apply IH; [done|]. apply fadd_nonneg; [done|]. by apply fmul_nonneg.
Qed.

(** X3.  On every list of brackets whose rates are not negative, bracket
    table or not, the tax of any income, finite, infinite or nan, is never
    negative. *)
Theorem calc_marginal_tax_never_negative (g : pyfloat) (tbl : list bracket) :
  Forall (λ b : bracket, 0 <= b.2) tbl →
  F.ltb (calc_marginal_tax g tbl) F.zero = false.
Proof. intros Hr. by apply marginal_loop_nonneg. Qed.

(** An infinite income on a list of brackets that is no bracket table. *)
Lemma calc_marginal_tax_never_negative_witness :
  Forall (λ b : bracket, 0 <= b.2) [(Fin 10, 0.5); (Fin 5, 0); (NaN, 2)] ∧
  F.ltb (calc_marginal_tax PInf [(Fin 10, 0.5); (Fin 5, 0); (NaN, 2)]) F.zero
    = false.
Proof.
  assert (Forall (λ b : bracket, 0 <= b.2)
            [(Fin 10, 0.5); (Fin 5, 0); (NaN, 2)]) as H
    by (repeat constructor; by vm_compute).
  split; [exact H|].
  exact (calc_marginal_tax_never_negative PInf _ H).
Defined.

(** ** The tables of the program *)

(** X5.  The six tables of the program are bracket tables with no bound
    below 0; the two federal dictionaries have the same keys; the state
    dictionary has exactly the codes of [SUPPORTED_STATES]; and the
    dictionaries hold no other table. *)
Theorem program_tables_consistent :
  (∀ tbl, tbl ∈ tables → bracket_table tbl ∧ bounds_nonneg tbl) ∧
  (∀ k, is_Some (FED_BRACKETS_2025 !! k)
        ↔ is_Some (FED_STANDARD_DEDUCTION_2025 !! k)) ∧
  (∀ k, is_Some (STATE_BRACKETS_2025_SINGLE !! k)
        ↔ k ∈ SUPPORTED_STATES.*1) ∧
  (∀ k tbl, FED_BRACKETS_2025 !! k = Some tbl
            ∨ STATE_BRACKETS_2025_SINGLE !! k = Some tbl →
            tbl ∈ tables).
Proof.
  split; [|split; [|split]].
  - unfold tables. intros tbl. rewrite !elem_of_cons, elem_of_nil.
    intros [->|[->|[->|[->|[->|[->|[]]]]]]].
    + apply fed_single_table.
    + apply fed_mfj_table.
    + apply fed_hoh_table.
    + apply state_CA_table.
    + apply state_NY_table.
    + apply no_income_tax_table.
  - intros k. rewrite fed_brackets_lookup, fed_deduction_lookup.
    repeat case_decide; split; intros [? ?]; by eauto.
  - intros k. rewrite state_brackets_lookup. simpl.
    rewrite !elem_of_cons, elem_of_nil.
    repeat case_decide; subst; split;
      try (intros [? ?]; discriminate); try tauto; by eauto.
  - intros k tbl. rewrite fed_brackets_lookup, state_brackets_lookup.
    unfold tables. rewrite !elem_of_cons.
    repeat case_decide; intros [[= <-]|[= <-]]; tauto.
Qed.

Lemma fed_selection (fs : string) :
  (fed_deduction_of fs, fed_table_of fs) ∈
    [(15000%Z, fed_single); (30000%Z, fed_mfj); (22500%Z, fed_hoh)].
Proof.
  destruct (estimate_federal_run (Fin 0) fs) as (ded & tbl & Hin & Hd & Hb & _).
  unfold fed_deduction_of, fed_table_of. by rewrite Hd, Hb.
Qed.

Lemma state_selection (st : string) :
  state_table_of st ∈ [state_CA; state_NY; no_income_tax].
Proof.
  unfold state_table_of. rewrite state_brackets_lookup.
  repeat case_decide; simpl; set_solver.
Qed.

Lemma fed_table_of_ok (fs : string) :
  bracket_table (fed_table_of fs) ∧
  Forall (λ b : bracket, b.2 <= 0.37) (fed_table_of fs) ∧
  0 <= inject_Z (fed_deduction_of fs).
Proof.
  pose proof (fed_selection fs) as H. revert H.
  rewrite !elem_of_cons, elem_of_nil.
  intros [[= -> ->]|[[= -> ->]|[[= -> ->]|[]]]];
    (split; [|split; [|by vm_compute]]).
  - apply fed_single_table.
  - unfold fed_single. repeat constructor; by vm_compute.
  - apply fed_mfj_table.
  - unfold fed_mfj. repeat constructor; by vm_compute.
  - apply fed_hoh_table.
  - unfold fed_hoh. repeat constructor; by vm_compute.
Qed.

Lemma state_table_of_ok (st : string) :
  bracket_table (state_table_of st) ∧
  Forall (λ b : bracket, b.2 <= 0.123) (state_table_of st).
Proof.
  pose proof (state_selection st) as H. revert H.
  rewrite !elem_of_cons, elem_of_nil. intros [->|[->|[->|[]]]]; split.
  - apply state_CA_table.
  - unfold state_CA. repeat constructor; by vm_compute.
  - apply state_NY_table.
  - unfold state_NY. repeat constructor; by vm_compute.
  - apply no_income_tax_table.
  - unfold no_income_tax. repeat constructor; by vm_compute.
Qed.

(** ** The estimators *)

(** The federal estimator in terms of the selected deduction and table. *)
Lemma estimate_federal_of (g : pyfloat) (fs : string) :
  estimate_federal_tax_2025 g fs =
    Ok (FedResult (F.of_Z (fed_deduction_of fs))
          (F.max F.zero (F.sub g (F.of_Z (fed_deduction_of fs))))
          (calc_marginal_tax
             (F.max F.zero (F.sub g (F.of_Z (fed_deduction_of fs))))
             (fed_table_of fs))).
Proof.
  destruct (estimate_federal_run g fs) as (ded & tbl & _ & Hd & Hb & Hrun).
  unfold fed_deduction_of, fed_table_of. by rewrite Hd, Hb.
Qed.

(** X6.  A finite gross income that does not exceed the standard deduction
    of the selected filing status has federal taxable income 0 and federal
    tax 0. *)
Theorem estimate_federal_below_deduction (x : Q) (filing_status : string) :
  x <= inject_Z (fed_deduction_of filing_status) →
  ∃ r, estimate_federal_tax_2025 (Fin x) filing_status = Ok r ∧
    standard_deduction r = F.of_Z (fed_deduction_of filing_status) ∧
    taxable_income r = Fin 0 ∧
    federal_tax r = Fin 0.
Proof.
  intros Hx. eexists. split; [apply estimate_federal_of|]. simpl.
  change (F.sub (Fin x) (F.of_Z (fed_deduction_of filing_status)))
    with (Fin (x + - inject_Z (fed_deduction_of filing_status))).
  rewrite fmax_zero_negative by lra.
  by rewrite calc_marginal_tax_zero.
Qed.

(** 22500 filed as head of household: exactly the deduction. *)
Lemma estimate_federal_below_deduction_witness :
  22500 <= inject_Z (fed_deduction_of "HoH") ∧
  ∃ r, estimate_federal_tax_2025 (Fin 22500) "HoH" = Ok r ∧
    taxable_income r = Fin 0 ∧ federal_tax r = Fin 0.
Proof.
  assert (22500 <= inject_Z (fed_deduction_of "HoH")) as H by (by vm_compute).
  split; [exact H|].
  destruct (estimate_federal_below_deduction 22500 "HoH" H)
    as (r & Hr & _ & Ht & Hf).
  exists r. split; [exact Hr|]. split; [exact Ht | exact Hf].
Defined.

(** X7.  In the two supported states without income tax, WA and FL in any
    case of letters, the state tax of every finite gross income is 0. *)
Theorem estimate_state_no_income_tax (x : Q) (state_code : string) :
  Str.upper state_code = "WA" ∨ Str.upper state_code = "FL" →
  state_tax (estimate_state_tax_2025_single (Fin x) state_code) ≡ Fin 0 ∧
  state_taxable_income (estimate_state_tax_2025_single (Fin x) state_code)
    ≡ Fin (Qmax 0 x).
Proof.
  intros Hcode. unfold estimate_state_tax_2025_single. cbv zeta.
  rewrite state_brackets_lookup. cbn [state_tax state_taxable_income].
  split; [|apply fmax_zero_fin].
  rewrite fmax_zero_eq.
  destruct Hcode as [-> | ->]; simpl default; apply calc_marginal_tax_no_tax.
Qed.

Lemma estimate_state_no_income_tax_witness :
  (Str.upper "fl" = "WA" ∨ Str.upper "fl" = "FL") ∧
  state_tax (estimate_state_tax_2025_single (Fin 75000) "fl") ≡ Fin 0.
Proof.
  assert (Str.upper "fl" = "WA" ∨ Str.upper "fl" = "FL") as H
    by (right; reflexivity).
  split; [exact H|].
  exact (proj1 (estimate_state_no_income_tax 75000 "fl" H)).
Defined.

(** ** The composition of the estimators *)

(** On a table with non-negative rates the banded accumulation depends on
    the value of the amount only. *)
Lemma banded_proper (tbl : list bracket) (r r' : Q) (lo : pyfloat) :
  Forall (λ b : bracket, 0 <= b.2) tbl → r == r' →
  banded tbl r lo == banded tbl r' lo.
Proof.
  intros Hr Heq. apply Qle_antisym; apply banded_mono; auto; lra.
Qed.

(** The run of the composition on a finite gross income: both taxes are
    finite amounts, the banded accumulations on the selected tables. *)
Lemma compose_estimate_finite (x : Q) (fs st : string) :
  ∃ tf ts,
    tf == spec_compute (x - inject_Z (fed_deduction_of fs)) (fed_table_of fs) ∧
    ts == spec_compute x (state_table_of st) ∧
    compose_estimate (Fin x) fs st =
      Ok (EstimateResponse (Fin x) fs st
            (FedResult (F.of_Z (fed_deduction_of fs))
               (F.max F.zero (F.sub (Fin x) (F.of_Z (fed_deduction_of fs))))
               (Fin tf))
            (StateResult (F.max F.zero (Fin x)) (Fin ts))
            (Fin (tf + ts))
            (F.max F.zero (Fin (x + - (tf + ts))))).
Proof.
  destruct (fed_table_of_ok fs) as (Hft & _ & _).
  destruct (state_table_of_ok st) as (Hst & _).
  unfold compose_estimate. rewrite estimate_federal_of.
  unfold estimate_state_tax_2025_single. cbv zeta.
  fold (state_table_of st).
  change (F.sub (Fin x) (F.of_Z (fed_deduction_of fs)))
    with (Fin (x + - inject_Z (fed_deduction_of fs))).
  rewrite !fmax_zero_eq.
  set (y := if Qltb 0 (x + - inject_Z (fed_deduction_of fs))
            then x + - inject_Z (fed_deduction_of fs) else 0).
  set (z := if Qltb 0 x then x else 0).
  destruct (calc_marginal_tax_fin y _ Hft) as (tf & Hcf & Htf).
  destruct (calc_marginal_tax_fin z _ Hst) as (ts & Hcs & Hts).
  exists tf, ts. split; [|split].
  - rewrite Htf. unfold spec_compute.
    apply banded_proper; [apply bracket_ok_rate, Hft|].
    subst y.
    destruct (Qltb 0 (x + - inject_Z (fed_deduction_of fs))) eqn:E; qprop;
      qminmax; lra.
  - rewrite Hts. unfold spec_compute.
    apply banded_proper; [apply bracket_ok_rate, Hst|].
    subst z. destruct (Qltb 0 x) eqn:E; qprop; qminmax; lra.
  - simpl. by rewrite Hcf, Hcs.
Qed.

(** Bounds on the two taxes of a finite gross income [x >= 0]. *)
Lemma tax_bounds (x : Q) (fs st : string) :
  0 <= x →
  0 <= spec_compute (x - inject_Z (fed_deduction_of fs)) (fed_table_of fs) ∧
  spec_compute (x - inject_Z (fed_deduction_of fs)) (fed_table_of fs)
    <= x * 0.37 ∧
  0 <= spec_compute x (state_table_of st) ∧
  spec_compute x (state_table_of st) <= x * 0.123.
Proof.
  intros Hx.
  destruct (fed_table_of_ok fs) as (Hft & Hfr & Hded).
  destruct (state_table_of_ok st) as (Hst & Hsr).
  unfold spec_compute.
  pose proof (banded_nonneg _ (bracket_ok_rate _ (proj1 Hft))
                (Qmax 0 (x - inject_Z (fed_deduction_of fs))) (Fin 0)).
  pose proof (banded_nonneg _ (bracket_ok_rate _ (proj1 Hst))
                (Qmax 0 x) (Fin 0)).
  assert (0 <= 0.37) as H37 by (by vm_compute).
  assert (0 <= 0.123) as H123 by (by vm_compute).
  pose proof (banded_le _ 0.37 Hfr H37
                (Qmax 0 (x - inject_Z (fed_deduction_of fs))) (Fin 0)
                (Q.le_max_l _ _)) as Hf.
  pose proof (banded_le _ 0.123 Hsr H123 (Qmax 0 x) (Fin 0)
                (Q.le_max_l _ _)) as Hs.
  assert (Qmax 0 (x - inject_Z (fed_deduction_of fs)) * 0.37 <= x * 0.37).
  { apply Qmult_le_compat_r; [|done]. qminmax. lra. }
  assert (Qmax 0 x * 0.123 <= x * 0.123).
  { apply Qmult_le_compat_r; [|done]. qminmax. lra. }
  repeat split; lra.
Qed.

(** X8.  For a finite gross income [x >= 0] the federal and the state tax
    are not negative, the total tax is their sum and at most half of the
    gross income, and the net income is the gross income less the total
    tax, at least half of the gross income: the clamp of the net income at 0
    never acts. *)
Theorem compose_estimate_net (x : Q) (fs st : string) :
  0 <= x →
  ∃ r tf ts n,
    compose_estimate (Fin x) fs st = Ok r ∧
    federal_tax (est_federal r) = Fin tf ∧
    state_tax (est_state_detail r) = Fin ts ∧
    est_total_tax r = Fin (tf + ts) ∧
    est_net_annual r = Fin n ∧
    0 <= tf ∧ 0 <= ts ∧ tf + ts <= x * 0.5 ∧
    n == x - (tf + ts) ∧ x * 0.5 <= n.
Proof.
  intros Hx.
  destruct (compose_estimate_finite x fs st) as (tf & ts & Htf & Hts & Hrun).
  destruct (tax_bounds x fs st Hx) as (Hf0 & Hf & Hs0 & Hs).
  rewrite (fmax_zero_eq (x + - (tf + ts))) in Hrun.
  eexists _, tf, ts, _. split; [exact Hrun|]. simpl.
  do 4 (split; [reflexivity|]).
  assert (tf + ts <= x * 0.5) as Hhalf by lra.
  repeat split; try lra;
    destruct (Qltb 0 (x + - (tf + ts))) eqn:E; qprop; lra.
Qed.

(** 60000 filed as single in California. *)
Lemma compose_estimate_net_witness :
  0 <= 60000 ∧
  ∃ r tf ts n,
    compose_estimate (Fin 60000) "single" "CA" = Ok r ∧
    est_total_tax r = Fin (tf + ts) ∧ est_net_annual r = Fin n ∧
    n == 60000 - (tf + ts) ∧ 60000 * 0.5 <= n.
Proof.
  assert (0 <= 60000) as H by (by vm_compute).
  split; [exact H|].
  destruct (compose_estimate_net 60000 "single" "CA" H)
    as (r & tf & ts & n & Hr & _ & _ & Ht & Hn & _ & _ & _ & Heq & Hhalf).
  exists r, tf, ts, n. split; [exact Hr|]. split; [exact Ht|].
  split; [exact Hn|]. split; [exact Heq | exact Hhalf].
Defined.

(** X9.  For a fixed filing status and state, a higher finite gross income
    never has a lower federal tax, a lower state tax or a lower total
    tax. *)
Theorem compose_estimate_tax_monotone (x1 x2 : Q) (fs st : string) :
  x1 <= x2 →
  ∃ r1 r2,
    compose_estimate (Fin x1) fs st = Ok r1 ∧
    compose_estimate (Fin x2) fs st = Ok r2 ∧
    F.leb (federal_tax (est_federal r1)) (federal_tax (est_federal r2))
      = true ∧
    F.leb (state_tax (est_state_detail r1)) (state_tax (est_state_detail r2))
      = true ∧
    F.leb (est_total_tax r1) (est_total_tax r2) = true.
Proof.
  intros Hle.
  destruct (compose_estimate_finite x1 fs st) as (f1 & s1 & Hf1 & Hs1 & Hr1).
  destruct (compose_estimate_finite x2 fs st) as (f2 & s2 & Hf2 & Hs2 & Hr2).
  destruct (fed_table_of_ok fs) as (Hft & _ & _).
  destruct (state_table_of_ok st) as (Hst & _).
  unfold spec_compute in *.
  set (d := inject_Z (fed_deduction_of fs)) in *.
  assert (Qmax 0 (x1 - d) <= Qmax 0 (x2 - d)) as Hy
    by (apply Q.max_le_compat_l; lra).
  assert (Qmax 0 x1 <= Qmax 0 x2) as Hz by (by apply Q.max_le_compat_l).
  pose proof (banded_mono _ (bracket_ok_rate _ (proj1 Hft)) _ _ (Fin 0) Hy).
  pose proof (banded_mono _ (bracket_ok_rate _ (proj1 Hst)) _ _ (Fin 0) Hz).
  eexists _, _. split; [exact Hr1|]. split; [exact Hr2|]. simpl.
  split; [|split]; apply Qle_bool_intro; lra.
Qed.

(** A raise from 60000 to 61000, filed jointly in New York. *)
Lemma compose_estimate_tax_monotone_witness :
  60000 <= 61000 ∧
  ∃ r1 r2,
    compose_estimate (Fin 60000) "mfj" "ny" = Ok r1 ∧
    compose_estimate (Fin 61000) "mfj" "ny" = Ok r2 ∧
    F.leb (est_total_tax r1) (est_total_tax r2) = true.
Proof.
  assert (60000 <= 61000) as H by (by vm_compute).
  split; [exact H|].
  destruct (compose_estimate_tax_monotone 60000 61000 "mfj" "ny" H)
    as (r1 & r2 & H1 & H2 & _ & _ & Ht).
  exists r1, r2. split; [exact H1|]. split; [exact H2 | exact Ht].
Defined.

(** ** The frequency normalizer *)

Lemma lower_char_upper_char (c : ascii) :
  Str.lower_char (Str.upper_char c) = Str.lower_char c.
Proof. by destruct c as [[] [] [] [] [] [] [] []]. Qed.

Lemma lower_char_lower_char (c : ascii) :
  Str.lower_char (Str.lower_char c) = Str.lower_char c.
Proof. by destruct c as [[] [] [] [] [] [] [] []]. Qed.

Lemma lower_upper (s : string) : Str.lower (Str.upper s) = Str.lower s.
Proof.
  induction s as [|c s IH]; [done|].
  unfold Str.lower, Str.upper in *. simpl.
  by rewrite lower_char_upper_char, IH.
Qed.

Lemma lower_lower (s : string) : Str.lower (Str.lower s) = Str.lower s.
Proof.
  induction s as [|c s IH]; [done|].
  unfold Str.lower in *. simpl. by rewrite lower_char_lower_char, IH.
Qed.

(** X10.  For a frequency written in ASCII, [annualize] does not depend on
    the case of its letters, and the annual equivalent of a finite amount is
    that amount times 52, 26, 12 or 1. *)
Theorem annualize_multiplier (amount : pyfloat) (a : Q) (frequency : string) :
  Str.is_ascii frequency = true →
  annualize amount (Str.upper frequency) = annualize amount frequency ∧
  annualize amount (Str.lower frequency) = annualize amount frequency ∧
  ∃ k, k ∈ [52%Z; 26%Z; 12%Z; 1%Z] ∧
       annualize (Fin a) frequency ≡ Fin (a * inject_Z k).
Proof.
  intros _. unfold annualize. rewrite lower_upper, lower_lower.
  split; [done|]. split; [done|]. cbv zeta.
  repeat case_bool_decide; simpl.
  all: try (exists 52%Z; split; [set_solver|apply feqv_fin; reflexivity]).
  all: try (exists 26%Z; split; [set_solver|apply feqv_fin; reflexivity]).
  all: try (exists 12%Z; split; [set_solver|apply feqv_fin; reflexivity]).
  exists 1%Z. split; [set_solver|]. apply feqv_fin.
  change (inject_Z 1) with 1. lra.
Qed.

(** 1000 every two weeks, the frequency written in capitals. *)
Lemma annualize_multiplier_witness :
  Str.is_ascii "Bi-Weekly" = true ∧
  annualize (Fin 1000) (Str.upper "Bi-Weekly")
    = annualize (Fin 1000) "Bi-Weekly" ∧
  annualize (Fin 1000) "Bi-Weekly" ≡ Fin 26000.
Proof.
  assert (Str.is_ascii "Bi-Weekly" = true) as H by reflexivity.
  split; [exact H|].
  split; [|by vm_compute].
  exact (proj1 (annualize_multiplier (Fin 1000) 1000 "Bi-Weekly" H)).
Defined.

(** ** The activity log *)

Lemma last_n_length {A : Type} (n : nat) (l : list A) :
  length (last_n n l) = Nat.min n (length l).
Proof. unfold last_n. rewrite length_drop. lia. Qed.

Lemma last_n_short {A : Type} (n : nat) (l : list A) :
  (length l ≤ n)%nat → last_n n l = l.
Proof.
  intros H. unfold last_n.
  by replace (length l - n)%nat with 0%nat by lia.
Qed.

(** X11.  [_log_activity] puts the new item last, keeps at most the 50
    most recent items in their order, drops nothing while there is room, and
    leaves the net income entries alone. *)
Theorem log_activity_capped (data : document) (message now : string) :
  let item := ActivityItem now message in
  let old := default [] (activity data) in
  ∃ items,
    activity (_log_activity data message now) = Some items ∧
    last items = Some item ∧
    (length items ≤ 50)%nat ∧
    items `suffix_of` (old ++ [item]) ∧
    ((length old < 50)%nat → items = old ++ [item]) ∧
    net_income_entries (_log_activity data message now)
      = net_income_entries data.
Proof.
  intros item old. unfold _log_activity. fold old. fold item.
  exists (last_n 50 (old ++ [item])). split; [done|].
  split; [by apply last_last_n; lia|].
  split; [rewrite last_n_length; lia|].
  split; [apply suffix_drop|].
  split; [|done]. intros Hlen. apply last_n_short.
  rewrite length_app. simpl. lia.
Qed.

(** ** The net income routes and the pages *)

Lemma take_length (n : nat) (s : string) :
  (String.length (Str.take n s) ≤ n)%nat.
Proof.
  revert s. induction n as [|n IH]; intros [|c s]; simpl; try lia.
  specialize (IH s). lia.
Qed.

(** [api_save_net_income] either raises while it reads the request, before
    it has touched the file, or appends, logs and saves. *)
Lemma api_save_net_income_shape (body : json) (now_ms : Z)
    (now now_log : string) (d : disk) :
  api_save_net_income body now_ms now now_log d =
    match prepared (get_payload body) now_ms now with
    | Ok e =>
        let data := default (Document (Some []) (Some [])) d in
        (Ok (EntryOk e, 200%Z),
         Some (_log_activity
                 (set_entries data
                    (last_n 100 (default [] (net_income_entries data) ++ [e])))
                 (saved_message e) now_log))
    | Raise ex => (Raise ex, d)
    end.
Proof.
  unfold api_save_net_income, prepared, mbind, io_bind, result_bind, lift.
  destruct (dict_get (get_payload body) "label" JNull) as [l|]; [|done].
  destruct (str_method _ _) as [label|]; [|done].
  destruct (dict_get (get_payload body) "net_amount" _) as [n|]; [|done].
  destruct (float_or _ _) as [amount|]; [|done].
  destruct (dict_get (get_payload body) "frequency" JNull) as [f|]; [|done].
  destruct (str_method _ _) as [frequency|]; [|done].
  by destruct d.
Qed.

Lemma dict_get_raise (d : json) (k : string) (dflt : json) ex :
  dict_get d k dflt = Raise ex → ex = AttributeError.
Proof. destruct d; simpl; congruence. Qed.

Lemma str_method_raise (f : string → string) (v : json) ex :
  str_method f v = Raise ex → ex = AttributeError.
Proof. destruct v; simpl; congruence. Qed.

Lemma str_method_Ok (f : string → string) (v : json) (s : string) :
  str_method f v = Ok s → ∃ s0, s = f s0.
Proof. destruct v; simpl; try discriminate. intros [= <-]. by eexists. Qed.

Lemma float_or_raise (v : json) (fallback : pyfloat) ex :
  float_or v fallback = Raise ex → ex = OverflowError.
Proof.
  unfold float_or. destruct (py_float v) as [x|e] eqn:E; [done|].
  destruct (py_float_raise v e E) as [He|[He|He]]; subst e; congruence.
Qed.

(** What [prepared] returns. *)
Lemma prepared_inv (payload : json) (now_ms : Z) (now : string) :
  match prepared payload now_ms now with
  | Ok e =>
      entry_ok e ∧ e_id e = now_ms ∧ e_ts e = now ∧ e_ts_edited e = None
  | Raise ex => ex = AttributeError ∨ ex = OverflowError
  end.
Proof.
  unfold prepared, mbind, result_bind.
  destruct (dict_get payload "label" JNull) as [l|ex] eqn:E1;
    [|left; by eapply dict_get_raise].
  destruct (str_method _ _) as [label|ex] eqn:E2;
    [|left; by eapply str_method_raise].
  destruct (dict_get payload "net_amount" _) as [n|ex] eqn:E3;
    [|left; by eapply dict_get_raise].
  destruct (float_or _ _) as [amount|ex] eqn:E4;
    [|right; by eapply float_or_raise].
  destruct (dict_get payload "frequency" JNull) as [f|ex] eqn:E5;
    [|left; by eapply dict_get_raise].
  destruct (str_method Str.lower _) as [frequency|ex] eqn:E6;
    [|left; by eapply str_method_raise].
  unfold entry_ok.
  cbn [e_id e_ts e_label e_frequency e_net_amount e_net_annual_equivalent
       e_ts_edited].
  repeat split; try done.
  - apply known_frequency_elem.
  - apply str_method_Ok in E2 as [s0 ->]. apply take_length.
Qed.

(** What [edited] returns. *)
Lemma edited_inv (payload : json) (old : entry) (now : string) :
  match edited payload old now with
  | Ok e =>
      entry_ok e ∧ e_id e = e_id old ∧ e_ts e = e_ts old ∧
      e_ts_edited e = Some now
  | Raise ex => ex = AttributeError ∨ ex = OverflowError
  end.
Proof.
  unfold edited, mbind, result_bind.
  destruct (dict_get payload "label" JNull) as [l|ex] eqn:E1;
    [|left; by eapply dict_get_raise].
  destruct (str_method _ _) as [label|ex] eqn:E2;
    [|left; by eapply str_method_raise].
  destruct (dict_get payload "net_amount" _) as [n|ex] eqn:E3;
    [|left; by eapply dict_get_raise].
  destruct (float_or _ _) as [amount|ex] eqn:E4;
    [|right; by eapply float_or_raise].
  destruct (dict_get payload "frequency" JNull) as [f|ex] eqn:E5;
    [|left; by eapply dict_get_raise].
  destruct (str_method Str.lower _) as [frequency|ex] eqn:E6;
    [|left; by eapply str_method_raise].
  unfold entry_ok.
  cbn [e_id e_ts e_label e_frequency e_net_amount e_net_annual_equivalent
       e_ts_edited].
  repeat split; try done.
  - apply known_frequency_elem.
  - apply str_method_Ok in E2 as [s0 ->]. apply take_length.
Qed.

(** X12.  A save that succeeds answers with the new entry, stamped with
    the clock and not yet edited, and writes it last; the file then holds the
    100 most recent entries in their order (all the former ones while there
    were fewer than 100), and the activity log, capped at 50, ends with the
    message of this save. *)
Theorem api_save_net_income_appends (body : json) (now_ms : Z)
    (now now_log : string) (d d' : disk) (resp : response * Z) :
  api_save_net_income body now_ms now now_log d = (Ok resp, d') →
  ∃ e,
    resp = (EntryOk e, 200%Z) ∧
    e_id e = now_ms ∧ e_ts e = now ∧ e_ts_edited e = None ∧
    entries_of d' = last_n 100 (entries_of d ++ [e]) ∧
    last (entries_of d') = Some e ∧
    (length (entries_of d') ≤ 100)%nat ∧
    ((length (entries_of d) < 100)%nat →
       entries_of d' = entries_of d ++ [e]) ∧
    activity_of d'
      = last_n 50 (activity_of d ++ [ActivityItem now_log (saved_message e)]) ∧
    last (activity_of d') = Some (ActivityItem now_log (saved_message e)) ∧
    (length (activity_of d') ≤ 50)%nat.
Proof.
  rewrite api_save_net_income_shape.
  pose proof (prepared_inv (get_payload body) now_ms now) as Hinv.
  destruct (prepared (get_payload body) now_ms now) as [e|ex]; [|done].
  destruct Hinv as (_ & Hid & Hts & Hed).
  cbv zeta. intros [= <- <-]. exists e.
  assert (default [] (net_income_entries
            (default (Document (Some []) (Some [])) d)) = entries_of d) as He
    by (by destruct d).
  assert (default [] (activity
            (default (Document (Some []) (Some [])) d)) = activity_of d) as Ha
    by (by destruct d).
  unfold entries_of at 1 3 4 6, activity_of at 1 3 4, _log_activity, set_entries.
  cbn [net_income_entries activity]. rewrite He.
  change (default [] (Some ?l)) with l. rewrite Ha.
  repeat split; try done.
  - by apply last_last_n; lia.
  - rewrite last_n_length. lia.
  - intros Hlen. apply last_n_short. rewrite length_app. simpl. lia.
  - by apply last_last_n; lia.
  - rewrite last_n_length. lia.
Qed.

(** A first save into a file that does not exist yet. *)
Lemma api_save_net_income_appends_witness :
  ∃ resp d',
    api_save_net_income (JDict [("net_amount", JNum (Fin 1200))])
      7 "t0" "t1" None = (Ok resp, d') ∧
    ∃ e, resp = (EntryOk e, 200%Z) ∧ entries_of d' = [e] ∧
         e_id e = 7%Z.
Proof.
  eexists _, _. split; [by vm_compute|].
  match goal with
  | |- ∃ e, (?r, _) = _ ∧ entries_of ?d = _ ∧ _ =>
      destruct (api_save_net_income_appends
                  (JDict [("net_amount", JNum (Fin 1200))])
                  7 "t0" "t1" None d (r, 200%Z) eq_refl)
        as (e & Hresp & Hid & _ & _ & _ & _ & _ & Happ & _)
  end.
  exists e. split; [exact Hresp|].
  split; [apply Happ; simpl; lia | exact Hid].
Defined.

(** X13.  A save that raises raises [AttributeError] (a label or a
    frequency that is not a string, a body that is not an object) or
    [OverflowError] (an amount that is an integer too large for a float),
    and leaves the file system as it was: an absent file is not even
    created. *)
Theorem api_save_net_income_raises (body : json) (now_ms : Z)
    (now now_log : string) (d d' : disk) (ex : exn) :
  api_save_net_income body now_ms now now_log d = (Raise ex, d') →
  (ex = AttributeError ∨ ex = OverflowError) ∧ d' = d.
Proof.
  rewrite api_save_net_income_shape.
  pose proof (prepared_inv (get_payload body) now_ms now) as Hinv.
  destruct (prepared (get_payload body) now_ms now) as [e|ex']; [done|].
  by intros [= <- <-].
Qed.

(** An amount of [10^400], sent as an integer, with no file yet. *)
Lemma api_save_net_income_raises_witness :
  api_save_net_income (JDict [("net_amount", JInt (10 ^ 400))]) 7 "t0" "t1"
    None = (Raise OverflowError, None) ∧
  (OverflowError = AttributeError ∨ OverflowError = OverflowError) ∧
  (None : disk) = None.
Proof.
  assert (api_save_net_income (JDict [("net_amount", JInt (10 ^ 400))]) 7
            "t0" "t1" None = (Raise OverflowError, None)) as H
    by (by vm_compute).
  split; [exact H|].
  exact (api_save_net_income_raises _ 7 "t0" "t1" None None OverflowError H).
Defined.

(** The edit route on any file. *)
Lemma api_update_latest_shape (body : json) (now now_log : string) (d : disk) :
  match last (entries_of d) with
  | None =>
      api_update_latest_net_income body now now_log d =
        (Ok (Failure "No net income entry to edit.", 400%Z),
         Some (default (Document (Some []) (Some [])) d))
  | Some old =>
      ∃ doc, d = Some doc ∧ net_income_entries doc = Some (entries_of d) ∧
        api_update_latest_net_income body now now_log d =
          match edited (get_payload body) old now with
          | Ok latest =>
              (Ok (EntryOk latest, 200%Z),
               Some (_log_activity
                       (set_entries doc
                          (<[(length (entries_of d) - 1)%nat := latest]>
                             (entries_of d)))
                       (edited_message latest) now_log))
          | Raise e => (Raise e, d)
          end
  end.
Proof.
  destruct (last (entries_of d)) as [old|] eqn:Hlast.
  - destruct d as [doc|]; [|done]. simpl in Hlast.
    destruct (net_income_entries doc) as [entries|] eqn:He; [|done].
    assert (entries_of (Some doc) = entries) as -> by (simpl; by rewrite He).
    exists doc. split; [done|]. split; [done|].
    by apply api_update_latest_run.
  - apply last_None in Hlast. destruct d as [doc|]; [|done].
    simpl in Hlast.
    unfold api_update_latest_net_income, mbind, io_bind. simpl _load_data.
    cbv beta iota. by rewrite Hlast.
Qed.

(** X14.  Both routes keep the entries of the file well formed: when every
    entry has a recognized frequency, the annual equivalent of its amount
    and frequency, and a label of at most 60 characters, the same holds after
    a save and after an edit, for every request, accepted or not. *)
Theorem routes_keep_entries_ok (body : json) (now_ms : Z)
    (now now_log : string) (d : disk) :
  Forall entry_ok (entries_of d) →
  Forall entry_ok
    (entries_of (api_save_net_income body now_ms now now_log d).2) ∧
  Forall entry_ok
    (entries_of (api_update_latest_net_income body now now_log d).2).
Proof.
  intros Hok. split.
  - rewrite api_save_net_income_shape.
    pose proof (prepared_inv (get_payload body) now_ms now) as Hinv.
    destruct (prepared (get_payload body) now_ms now) as [e|ex]; [|done].
    destruct Hinv as (He & _). cbn.
    apply Forall_drop, Forall_app. split; [by destruct d|].
    by apply Forall_singleton.
  - pose proof (api_update_latest_shape body now now_log d) as Hshape.
    destruct (last (entries_of d)) as [old|].
    + destruct Hshape as (doc & -> & Hdoc & ->).
      pose proof (edited_inv (get_payload body) old now) as Hinv.
      destruct (edited (get_payload body) old now) as [e|ex]; [|done].
      destruct Hinv as (He & _). cbn. by apply Forall_insert.
    + rewrite Hshape. by destruct d.
Qed.

(** A file with one well formed entry. *)
Lemma routes_keep_entries_ok_witness :
  let e0 := Entry 1 "t0" "rent" (Fin 900) "monthly" (Fin 10800) None in
  let d := Some (Document (Some [e0]) None) in
  let body := JDict [("net_amount", JStr "12.5"); ("frequency", JStr "Hourly")] in
  Forall entry_ok (entries_of d) ∧
  Forall entry_ok (entries_of (api_save_net_income body 2 "t1" "t2" d).2) ∧
  Forall entry_ok (entries_of (api_update_latest_net_income body "t1" "t2" d).2).
Proof.
  intros e0 d body.
  assert (Forall entry_ok (entries_of d)) as H.
  { apply Forall_singleton. unfold entry_ok. simpl.
    split; [unfold FREQUENCIES; set_solver|]. split; [reflexivity|lia]. }
  split; [exact H|].
  exact (routes_keep_entries_ok body 2 "t1" "t2" d H).
Defined.

(** The pages show the last activity and the last entry, and create the
    file when it does not exist. *)
Lemma pages_run (d : disk) :
  index d =
    (Ok (IndexPage (last (activity_of d)) (last (entries_of d))),
     Some (default (Document (Some []) (Some [])) d)) ∧
  net_income d =
    (Ok (NetIncomePage (last (entries_of d)) SUPPORTED_STATES),
     Some (default (Document (Some []) (Some [])) d)).
Proof.
  unfold index, net_income, mbind, io_bind, latest_of.
  destruct d as [doc|]; [|done]. simpl.
  by destruct (activity doc) as [[|a l]|],
              (net_income_entries doc) as [[|e l']|].
Qed.

(** X15.  After a save or an edit that succeeded, the index page shows the
    entry that the route returned and the activity it logged, the net income
    page shows that entry with the supported states, and neither page
    changes the file. *)
Theorem pages_after_write (body : json) (now_ms : Z) (now now_log : string)
    (d d' : disk) (e : entry) :
  (api_save_net_income body now_ms now now_log d
     = (Ok (EntryOk e, 200%Z), d') →
   index d' =
     (Ok (IndexPage (Some (ActivityItem now_log (saved_message e))) (Some e)),
      d') ∧
   net_income d' = (Ok (NetIncomePage (Some e) SUPPORTED_STATES), d')) ∧
  (api_update_latest_net_income body now now_log d
     = (Ok (EntryOk e, 200%Z), d') →
   index d' =
     (Ok (IndexPage (Some (ActivityItem now_log (edited_message e))) (Some e)),
      d') ∧
   net_income d' = (Ok (NetIncomePage (Some e) SUPPORTED_STATES), d')).
Proof.
  split.
  - intros Hrun. rewrite api_save_net_income_shape in Hrun.
    destruct (prepared (get_payload body) now_ms now) as [e'|]; [|done].
    cbv zeta in Hrun. injection Hrun as -> <-.
    match goal with
    | |- index ?f = _ ∧ _ => destruct (pages_run f) as [Hi Hn]
    end.
    rewrite Hi, Hn.
    cbn [entries_of activity_of _log_activity set_entries net_income_entries
         activity default from_option id].
    by rewrite !last_last_n by lia.
  - intros Hrun.
    pose proof (api_update_latest_shape body now now_log d) as Hshape.
    destruct (last (entries_of d)) as [old|] eqn:Hlast;
      [|rewrite Hshape in Hrun; discriminate].
    destruct Hshape as (doc & -> & Hdoc & Hshape).
    remember (entries_of (Some doc)) as es eqn:Hes.
    rewrite Hshape in Hrun.
    destruct (edited (get_payload body) old now) as [latest|]; [|done].
    injection Hrun as -> <-.
    assert (0 < length es)%nat as Hlen.
    { destruct es; [done|simpl; lia]. }
    destruct (pages_run
                (Some (_log_activity
                         (set_entries doc (<[(length es - 1)%nat := e]> es))
                         (edited_message e) now_log))) as [Hi Hn].
    rewrite Hi, Hn.
    assert (last (<[(length es - 1)%nat := e]> es) = Some e) as He.
    { rewrite last_lookup, length_insert.
      replace (pred (length es)) with (length es - 1)%nat by lia.
      apply list_lookup_insert_eq. lia. }
    cbn [entries_of activity_of _log_activity set_entries net_income_entries
         activity default from_option id].
    rewrite He. by rewrite last_last_n by lia.
Qed.

(** Saving 1200 a month into a new file, then opening the pages. *)
Lemma pages_after_write_witness :
  ∃ e d',
    api_save_net_income (JDict [("net_amount", JNum (Fin 1200))])
      7 "t0" "t1" None = (Ok (EntryOk e, 200%Z), d') ∧
    index d' =
      (Ok (IndexPage (Some (ActivityItem "t1" (saved_message e))) (Some e)),
       d') ∧
    net_income d' = (Ok (NetIncomePage (Some e) SUPPORTED_STATES), d').
Proof.
  eexists _, _. split; [by vm_compute|].
  match goal with
  | |- index ?d = (Ok (IndexPage _ (Some ?e)), _) ∧ _ =>
      exact (proj1 (pages_after_write
                      (JDict [("net_amount", JNum (Fin 1200))])
                      7 "t0" "t1" None d e) eq_refl)
  end.
Defined.

(** X16.  An edit with an empty request (null, an empty object or any
    other empty value) of a latest entry with a recognized frequency keeps
    its amount and frequency, recomputes the annual equivalent from them,
    keeps the id and the creation time, and sets the edit time; the label is
    the former one, or "Net income" if that was empty, stripped and cut at
    60 characters. *)
Theorem api_update_latest_empty_request (body : json) (now now_log : string)
    (doc : document) (entries : list entry) (old : entry) :
  get_payload body = JDict [] →
  net_income_entries doc = Some entries → last entries = Some old →
  e_frequency old ∈ FREQUENCIES →
  ∃ latest d',
    api_update_latest_net_income body now now_log (Some doc)
      = (Ok (EntryOk latest, 200%Z), Some d') ∧
    last (default [] (net_income_entries d')) = Some latest ∧
    e_id latest = e_id old ∧ e_ts latest = e_ts old ∧
    e_net_amount latest = e_net_amount old ∧
    e_frequency latest = e_frequency old ∧
    e_net_annual_equivalent latest
      = annualize (e_net_amount old) (e_frequency old) ∧
    e_label latest
      = Str.take 60 (Str.strip (if bool_decide (e_label old = "")
                                then "Net income" else e_label old)) ∧
    e_ts_edited latest = Some now.
Proof.
  intros Hbody Hdoc Hlast Hfreq.
  rewrite (api_update_latest_run body now now_log doc entries old Hdoc Hlast).
  rewrite Hbody.
  assert (Str.lower (e_frequency old) = e_frequency old ∧
          truthy (JStr (e_frequency old)) = true) as [Hlow Htrue].
  { revert Hfreq. unfold FREQUENCIES. rewrite !elem_of_cons, elem_of_nil.
    by intros [->|[->|[->|[->|[->|[]]]]]]. }
  assert (edited (JDict []) old now =
            Ok (Entry (e_id old) (e_ts old)
                  (Str.take 60 (Str.strip (if bool_decide (e_label old = "")
                                           then "Net income" else e_label old)))
                  (e_net_amount old) (e_frequency old)
                  (annualize (e_net_amount old) (e_frequency old))
                  (Some now))) as ->.
  { unfold edited, dict_get, mbind, result_bind. cbn [assoc default from_option id].
    unfold py_or at 2 4. cbn [truthy]. unfold py_or. rewrite Htrue.
    cbn [truthy str_method float_or py_float].
    rewrite Hlow, (known_frequency_known _ Hfreq).
    by destruct (bool_decide (e_label old = "")). }
  assert (0 < length entries)%nat as Hlen.
  { destruct entries; [done|simpl; lia]. }
  eexists _, _. split; [reflexivity|].
  cbn [_log_activity set_entries net_income_entries default from_option id
       e_id e_ts e_net_amount e_frequency e_net_annual_equivalent e_label
       e_ts_edited].
  split; [|done].
  rewrite last_lookup, length_insert.
  replace (pred (length entries)) with (length entries - 1)%nat by lia.
  apply list_lookup_insert_eq. lia.
Qed.

(** An empty object sent for an entry saved as 5000 a month. *)
Lemma api_update_latest_empty_request_witness :
  let e1 := Entry 2 "t1" "pay" (Fin 5000) "monthly" (Fin 60000) None in
  let doc := Document (Some [e1]) (Some []) in
  get_payload (JDict []) = JDict [] ∧
  net_income_entries doc = Some [e1] ∧ last [e1] = Some e1 ∧
  e_frequency e1 ∈ FREQUENCIES ∧
  ∃ latest d',
    api_update_latest_net_income (JDict []) "t2" "t3" (Some doc)
      = (Ok (EntryOk latest, 200%Z), Some d') ∧
    e_net_amount latest = Fin 5000 ∧ e_frequency latest = "monthly" ∧
    e_ts_edited latest = Some "t2".
Proof.
  intros e1 doc.
  assert (e_frequency e1 ∈ FREQUENCIES) as H by (unfold FREQUENCIES; set_solver).
  split; [reflexivity|]. split; [reflexivity|]. split; [reflexivity|].
  split; [exact H|].
  destruct (api_update_latest_empty_request (JDict []) "t2" "t3" doc [e1] e1
              eq_refl eq_refl eq_refl H)
    as (latest & d' & Hrun & _ & _ & _ & Ha & Hf & _ & _ & Ht).
  exists latest, d'. split; [exact Hrun|]. split; [exact Ha|].
  split; [exact Hf | exact Ht].
Defined.
